(** * Counter and reply-tree consistency of the project-sharing backend

    A shallow embedding of the Mongoose models and the Express route
    handlers of the repository (models/Project.js, models/User.js,
    routes/projects.js, routes/comments.js, routes/user.js), followed by
    the properties of the denormalised counters ([likesCount],
    [commentsCount]) and of the two-level comment/reply tree.

    Conventions of the embedding:
    - a MongoDB collection is a finite map from [_id] to the other fields
      of the document; a document in the hands of a handler ([doc]) is
      the pair of its [_id] and its fields;
    - an [ObjectId] is a natural number (only equality of identifiers is
      ever used by the handlers, through [toString] comparisons);
    - a JS [Number] holding a counter is the integer it holds, in [Z];
      an [$inc] gives the nearest double of the sum ([to_double]);
    - a string is the sequence of bytes of the UTF-8 encoding of the JS
      string; its [length] in JS is the number of its UTF-16 code units
      ([js_length]);
    - every [await] of a handler is a bind of the [Handler] monad, every
      [return res.status(..).json(..)] leaves the handler at once, and the
      [catch] block of a handler turns a persistence error into the
      500 response;
    - the [timestamps] option of the schemas (createdAt, updatedAt) is
      maintained by Mongoose itself and is left out of the documents. *)

From stdpp Require Import gmap strings list fin_maps.
From Stdlib Require Import ZArith Ascii.

Local Open Scope Z_scope.
Local Open Scope string_scope.

Abbreviation ObjectId := N.

(** ** Models *)

(** models/User.js : [userSchema].  The password hook and
    [comparePassword] call bcrypt and are not used by the routes below. *)
Module User.
Record t := mk {
  username : string;
  email : string;
  password : string;
  avatar : string;
  bio : string;
  githubProfile : string;
  portfolio : string
}.

Record doc := Doc { _id : ObjectId; fields : t }.
End User.

(** models/Project.js : [projectSchema] and its [pre("save")] hook. *)
Module Project.
Record t := mk {
  title : string;
  description : string;
  image : string;
  githubUrl : string;
  liveUrl : option string;
  tags : list string;
  author : ObjectId;
  likes : list ObjectId;
  likesCount : Z;
  commentsCount : Z
}.

Definition set_likes (l : list ObjectId) (p : t) : t :=
  mk (title p) (description p) (image p) (githubUrl p) (liveUrl p)
     (tags p) (author p) l (likesCount p) (commentsCount p).

Definition set_likesCount (n : Z) (p : t) : t :=
  mk (title p) (description p) (image p) (githubUrl p) (liveUrl p)
     (tags p) (author p) (likes p) n (commentsCount p).

Definition set_commentsCount (n : Z) (p : t) : t :=
  mk (title p) (description p) (image p) (githubUrl p) (liveUrl p)
     (tags p) (author p) (likes p) (likesCount p) n.

Record doc := Doc { _id : ObjectId; fields : t }.

(** An assignment to a path of the document. *)
Definition assign (f : t → t) (d : doc) : doc := Doc (_id d) (f (fields d)).

(** [projectSchema.pre("save", ...)]:
    [this.likesCount = this.likes.length]. *)
Definition pre_save (d : doc) : doc :=
  assign (set_likesCount (Z.of_nat (length (likes (fields d))))) d.
End Project.

(** Modelled from the spec: models/Comment.js is required by both route
    files but is not among the sources.  The fields are those the routes
    read and write ([content], [author], [project], [parentComment],
    [replies], [likes], [likesCount]); the data model of the
    specification gives the same list.  The save hook follows the
    specification's "likesCount derived from liker-set size", the rule
    [projectSchema] implements for projects. *)
Module Comment.
Record t := mk {
  content : string;
  author : ObjectId;
  project : ObjectId;
  parentComment : option ObjectId;
  replies : list ObjectId;
  likes : list ObjectId;
  likesCount : Z
}.

Definition set_content (s : string) (c : t) : t :=
  mk s (author c) (project c) (parentComment c) (replies c)
     (likes c) (likesCount c).

Definition set_replies (l : list ObjectId) (c : t) : t :=
  mk (content c) (author c) (project c) (parentComment c) l
     (likes c) (likesCount c).

Definition set_likes (l : list ObjectId) (c : t) : t :=
  mk (content c) (author c) (project c) (parentComment c)
     (replies c) l (likesCount c).

Definition set_likesCount (n : Z) (c : t) : t :=
  mk (content c) (author c) (project c) (parentComment c)
     (replies c) (likes c) n.

Record doc := Doc { _id : ObjectId; fields : t }.

(** An assignment to a path of the document. *)
Definition assign (f : t → t) (d : doc) : doc := Doc (_id d) (f (fields d)).

(** Modelled from the spec: the save hook of the comment schema,
    [likesCount] is the size of the liker set. *)
Definition pre_save (d : doc) : doc :=
  assign (set_likesCount (Z.of_nat (length (likes (fields d))))) d.

(** [new Comment({content, author, project, parentComment})] with the
    [_id] it is given: the arrays start empty and the counter at its
    default. *)
Definition new (oid : ObjectId) (content : string) (author project : ObjectId)
    (parent : option ObjectId) : doc :=
  Doc oid (mk content author project parent [] [] 0).
End Comment.

Coercion User.fields : User.doc >-> User.t.
Coercion Project.fields : Project.doc >-> Project.t.
Coercion Comment.fields : Comment.doc >-> Comment.t.

(** ** The database and the responses *)

Record Db := mkDb {
  users : gmap N User.t;
  projects : gmap N Project.t;
  comments : gmap N Comment.t
}.

Definition set_users (m : gmap N User.t) (db : Db) : Db :=
  mkDb m (projects db) (comments db).
Definition set_projects (m : gmap N Project.t) (db : Db) : Db :=
  mkDb (users db) m (comments db).
Definition set_comments (m : gmap N Comment.t) (db : Db) : Db :=
  mkDb (users db) (projects db) m.

(** The result of [populate("author", "username avatar")]. *)
Record AuthorSummary := mkAuthor {
  a_id : ObjectId;
  a_username : string;
  a_avatar : string
}.

(** A user document after [select("-password")]. *)
Record UserView := mkUserView {
  v_id : ObjectId;
  v_username : string;
  v_email : string;
  v_avatar : string;
  v_bio : string;
  v_githubProfile : string;
  v_portfolio : string
}.

Inductive Body :=
  | Message (message : string)
  | Errors (errors : list string)
  | ProjectJson (p : option (Project.doc * option AuthorSummary))
  | CommentJson (c : Comment.doc) (a : option AuthorSummary)
  | LikeJson (liked : bool) (likesCount : Z)
  | UserJson (u : option UserView).

Record Response := Json { status : nat; body : Body }.

(** The error taxonomy of the handlers. *)
Definition ValidationFailure (errs : list string) : Response := Json 400 (Errors errs).
Definition NotFound (m : string) : Response := Json 404 (Message m).
Definition Unauthorized : Response := Json 403 (Message "Not authorized").
Definition Conflict : Response := Json 400 (Message "Username already taken").
Definition UnexpectedFailure : Response := Json 500 (Message "Server error").

(** The request as the handler sees it: [validationResult(req)], the
    identity [req.user] left by the [auth] middleware, [req.params.id]
    and the (sanitised) [req.body]. *)
Record Req (B : Type) := mkReq {
  validationErrors : list string;
  user : User.doc;
  params_id : ObjectId;
  reqBody : B
}.
Arguments mkReq {B} _ _ _ _.
Arguments validationErrors {B} _.
Arguments user {B} _.
Arguments params_id {B} _.
Arguments reqBody {B} _.

(** ** The handler monad *)

Inductive Step (A : Type) :=
  | Respond (r : Response)
  | Continue (a : A).
Arguments Respond {A} r.
Arguments Continue {A} a.

Definition Handler (A : Type) : Type := Db → Step A * Db.

(** Falling through to the next statement with a value. *)
Definition ret {A} (a : A) : Handler A := λ db, (Continue a, db).

(** [const a = await m; k]: a response already sent ends the handler. *)
Definition bind {A B} (m : Handler A) (k : A → Handler B) : Handler B :=
  λ db,
    match m db with
    | (Respond r, db') => (Respond r, db')
    | (Continue a, db') => k a db'
    end.

Declare Scope handler_scope.
Delimit Scope handler_scope with handler.
Bind Scope handler_scope with Handler.
Notation "x ← y ; z" := (bind y (λ x, z))
  (at level 20, y at level 100, z at level 200, only parsing) : handler_scope.
Notation "x ;; z" := (bind x (λ _, z))
  (at level 100, z at level 200, only parsing, right associativity) : handler_scope.
Local Open Scope handler_scope.

(** [return res.status(s).json(b)] *)
Definition respond {A} (r : Response) : Handler A := λ db, (Respond r, db).

(** A rejected promise inside [try]: the [catch] block answers 500. *)
Definition raise {A} : Handler A := respond UnexpectedFailure.

(** A write to the database. *)
Definition modify (f : Db → Db) : Handler () := λ db, (Continue (), f db).

(** Running a handler on a database: the response and the database left. *)
Definition run (h : Handler Response) (db : Db) : Response * Db :=
  match h db with
  | (Respond r, db') => (r, db')
  | (Continue r, db') => (r, db')
  end.

(** ** The persistence layer (the Mongoose calls of the handlers) *)

(** Query documents [{ parentComment: id }] and [{ project: id }]. *)
Inductive CommentFilter :=
  | ByParentComment (id : ObjectId)
  | ByProject (id : ObjectId).

Definition matches (f : CommentFilter) (c : Comment.t) : Prop :=
  match f with
  | ByParentComment id => Comment.parentComment c = Some id
  | ByProject id => Comment.project c = id
  end.

#[global] Instance matches_dec f c : Decision (matches f c).
Proof. destruct f; simpl; apply _. Defined.

(** The double nearest to an integer, ties to the even mantissa: an
    integer of magnitude up to 2^53 is a double; above, the 53 leading
    bits are kept and the rest is rounded.  (Counters are finite
    doubles: magnitudes below 2^1024.) *)
Definition to_double (z : Z) : Z :=
  (let a := Z.abs z in
   if bool_decide (a ≤ 2 ^ 53) then z
   else
     let e := Z.log2 a - 52 in
     let q := a `div` 2 ^ e in
     let r := a `mod` 2 ^ e in
     let h := 2 ^ (e - 1) in
     let q' := if bool_decide (r < h) then q
               else if bool_decide (h < r) then q + 1
               else if Z.even q then q else q + 1 in
     Z.sgn z * (q' * 2 ^ e))%Z.

(** The number of UTF-16 code units of the string whose UTF-8 encoding
    is [s], the [length] of the JS string: one for a character of one,
    two or three bytes, two (a surrogate pair) for a character of four
    bytes; a continuation byte counts for nothing. *)
Definition utf16_units (c : ascii) : nat :=
  let n := Ascii.N_of_ascii c in
  if bool_decide (n < 128)%N then 1%nat
  else if bool_decide (n < 192)%N then 0%nat
  else if bool_decide (n < 240)%N then 1%nat
  else 2%nat.

Fixpoint js_length (s : string) : nat :=
  match s with
  | EmptyString => 0%nat
  | String c r => (utf16_units c + js_length r)%nat
  end.

(** The validators of [projectSchema] that [save] runs on the paths of
    a document: [required] on [title], [description], [image] and
    [githubUrl] (an empty string does not satisfy it) and [maxlength] on
    [title] and [description]; [author] is always present. *)
Definition Project_validate (p : Project.t) : Prop :=
  Project.title p ≠ "" ∧ (js_length (Project.title p) ≤ 100)%nat
  ∧ Project.description p ≠ ""
  ∧ (js_length (Project.description p) ≤ 1000)%nat
  ∧ Project.image p ≠ ""
  ∧ Project.githubUrl p ≠ "".

#[global] Instance Project_validate_dec p : Decision (Project_validate p).
Proof. unfold Project_validate. apply _. Defined.

(** The update operators of the handlers, on one document:
    [{ $inc: { commentsCount: n } }], [{ $push: { replies: r } }] and
    [{ $pull: { replies: r } }] (every occurrence of [r] leaves the
    array). *)
Definition inc_commentsCount (n : Z) (p : Project.t) : Project.t :=
  Project.set_commentsCount (to_double (Project.commentsCount p + n)) p.
Definition push_reply (r : ObjectId) (c : Comment.t) : Comment.t :=
  Comment.set_replies (Comment.replies c ++ [r]) c.
Definition pull_reply (r : ObjectId) (c : Comment.t) : Comment.t :=
  Comment.set_replies (filter (λ x, x ≠ r) (Comment.replies c)) c.

(** [Project.findById(id)] *)
Definition Project_findById (id : ObjectId) : Handler (option Project.doc) :=
  λ db, (Continue (Project.Doc id <$> projects db !! id), db).

(** [project.save()] of a document that was read from the collection:
    the validators and the hook run, then the document is written and
    the handler goes on with the hooked document; a document that
    violates a validator rejects the promise and nothing is written. *)
Definition Project_save (p : Project.doc) : Handler Project.doc :=
  λ db,
    let p := Project.pre_save p in
    if bool_decide (Project_validate p)
    then (Continue p,
          set_projects (<[Project._id p := Project.fields p]> (projects db)) db)
    else raise db.

(** [Project.findByIdAndUpdate(id, { $inc: { commentsCount: n } })];
    a query update, no save hook; nothing happens when [id] is absent. *)
Definition Project_inc_commentsCount (id : ObjectId) (n : Z) : Handler () :=
  modify (λ db, set_projects (alter (inc_commentsCount n) id (projects db)) db).

(** [Project.findByIdAndDelete(id)] *)
Definition Project_findByIdAndDelete (id : ObjectId) : Handler () :=
  modify (λ db, set_projects (delete id (projects db)) db).

(** [Comment.findById(id)] *)
Definition Comment_findById (id : ObjectId) : Handler (option Comment.doc) :=
  λ db, (Continue (Comment.Doc id <$> comments db !! id), db).

(** [comment.save()] of a document made by [new Comment(..)]: an insert;
    MongoDB refuses a duplicate [_id] and the promise is rejected. *)
Definition Comment_insert (c : Comment.doc) : Handler Comment.doc :=
  λ db,
    let c := Comment.pre_save c in
    match comments db !! Comment._id c with
    | Some _ => raise db
    | None =>
        (Continue c,
         set_comments (<[Comment._id c := Comment.fields c]> (comments db)) db)
    end.

(** [comment.save()] of a document that was read from the collection. *)
Definition Comment_save (c : Comment.doc) : Handler Comment.doc :=
  λ db,
    let c := Comment.pre_save c in
    (Continue c, set_comments (<[Comment._id c := Comment.fields c]> (comments db)) db).

(** [Comment.findByIdAndUpdate(id, { $push: { replies: r } })] *)
Definition Comment_push_replies (id r : ObjectId) : Handler () :=
  modify (λ db, set_comments (alter (push_reply r) id (comments db)) db).

(** [Comment.findByIdAndUpdate(id, { $pull: { replies: r } })] *)
Definition Comment_pull_replies (id r : ObjectId) : Handler () :=
  modify (λ db, set_comments (alter (pull_reply r) id (comments db)) db).

(** [Comment.deleteMany(f)] *)
Definition Comment_deleteMany (f : CommentFilter) : Handler () :=
  modify (λ db,
    set_comments (filter (λ kc, ¬ matches f kc.2) (comments db)) db).

(** [Comment.countDocuments(f)] *)
Definition Comment_countDocuments (f : CommentFilter) : Handler Z :=
  λ db, (Continue (Z.of_nat (size (filter (λ kc, matches f kc.2) (comments db)))), db).

(** [Comment.findByIdAndDelete(id)] *)
Definition Comment_findByIdAndDelete (id : ObjectId) : Handler () :=
  modify (λ db, set_comments (delete id (comments db)) db).

(** [doc.populate("author", "username avatar")]: the summary of the
    referenced user, [null] when the user is gone. *)
Definition populate_author (a : ObjectId) : Handler (option AuthorSummary) :=
  λ db,
    (Continue ((λ u, mkAuthor a (User.username u) (User.avatar u))
                 <$> users db !! a), db).

(** [User.findOne({ username })] *)
Definition User_findOne_username (n : string) : Handler (option User.doc) :=
  λ db,
    (Continue ((λ ku, User.Doc ku.1 ku.2) <$> head (map_to_list
                 (filter (λ ku, User.username ku.2 = n) (users db)))), db).

(** [project.save()] of a document made by [new Project(..)]: the
    validators and the hook run, then the document is inserted; a
    validation error or a duplicate [_id] rejects the promise. *)
Definition Project_insert (p : Project.doc) : Handler Project.doc :=
  λ db,
    let p := Project.pre_save p in
    if bool_decide (Project_validate p ∧ projects db !! Project._id p = None)
    then (Continue p,
          set_projects (<[Project._id p := Project.fields p]> (projects db)) db)
    else raise db.

(** ** Strings of the request body *)

(** [s.split(",")] *)
Fixpoint split_comma (s : string) : list string :=
  match s with
  | EmptyString => [""]
  | String c r =>
      if Ascii.eqb c ","%char then "" :: split_comma r
      else match split_comma r with
           | h :: t => String c h :: t
           | [] => [String c ""]
           end
  end.

(** The white space and line terminators of [String.prototype.trim]:
    the characters of one byte TAB, LF, VT, FF, CR, SP, ... *)
Definition is_space (c : ascii) : bool :=
  let n := Ascii.N_of_ascii c in
  bool_decide (n = 9 ∨ n = 10 ∨ n = 11 ∨ n = 12 ∨ n = 13 ∨ n = 32)%N.

(** ... of two bytes, U+00A0 (C2 A0), ... *)
Definition is_space2 (a b : ascii) : bool :=
  bool_decide (Ascii.N_of_ascii a = 194 ∧ Ascii.N_of_ascii b = 160)%N.

(** ... and of three bytes: U+1680 (E1 9A 80), U+2000 to U+200A
    (E2 80 80 to E2 80 8A), U+2028, U+2029, U+202F (E2 80 A8, A9, AF),
    U+205F (E2 81 9F), U+3000 (E3 80 80) and U+FEFF (EF BB BF). *)
Definition is_space3 (a b c : ascii) : bool :=
  let x := Ascii.N_of_ascii a in
  let y := Ascii.N_of_ascii b in
  let z := Ascii.N_of_ascii c in
  bool_decide
    ((x = 225 ∧ y = 154 ∧ z = 128)
     ∨ (x = 226 ∧ y = 128 ∧ (128 ≤ z ≤ 138 ∨ z = 168 ∨ z = 169 ∨ z = 175))
     ∨ (x = 226 ∧ y = 129 ∧ z = 159)
     ∨ (x = 227 ∧ y = 128 ∧ z = 128)
     ∨ (x = 239 ∧ y = 187 ∧ z = 191))%N.

(** The string is exactly one white space character. *)
Definition one_space (s : string) : bool :=
  match s with
  | String a EmptyString => is_space a
  | String a (String b EmptyString) => is_space2 a b
  | String a (String b (String c EmptyString)) => is_space3 a b c
  | _ => false
  end.

Fixpoint trim_start (s : string) : string :=
  match s with
  | EmptyString => ""
  | String a r =>
      if is_space a then trim_start r
      else
        match r with
        | EmptyString => s
        | String b r2 =>
            if is_space2 a b then trim_start r2
            else
              match r2 with
              | EmptyString => s
              | String c r3 => if is_space3 a b c then trim_start r3 else s
              end
        end
  end.

Fixpoint trim_end (s : string) : string :=
  match s with
  | EmptyString => ""
  | String a r =>
      let t := String a (trim_end r) in
      if one_space t then "" else t
  end.

(** [s.trim()] *)
Definition trim (s : string) : string := trim_end (trim_start s).


(** ** routes/projects.js *)

Module ProjectRoutes.

(** The body of [PUT /:id], restricted to the paths of the schema
    (Mongoose drops the others); [tags] arrives as a string or as an
    array. *)
Record UpdateData := mkUpdate {
  title : option string;
  description : option string;
  image : option string;
  githubUrl : option string;
  liveUrl : option string;
  tags : option (string + list string);
  author : option ObjectId;
  likes : option (list ObjectId);
  likesCount : option Z;
  commentsCount : option Z
}.

(** [if (updateData.tags && typeof updateData.tags === "string")
      updateData.tags = updateData.tags.split(",").map(tag => tag.trim())] *)
Definition normalise_tags (u : UpdateData) : UpdateData :=
  match tags u with
  | Some (inl s) =>
      if bool_decide (s ≠ "") then
        mkUpdate (title u) (description u) (image u) (githubUrl u) (liveUrl u)
                 (Some (inr (trim <$> split_comma s)))
                 (author u) (likes u) (likesCount u) (commentsCount u)
      else u
  | _ => u
  end.

(** The cast of the [tags] path: a scalar becomes a one-element array,
    and the schema trims every element. *)
Definition cast_tags (t : string + list string) : list string :=
  match t with
  | inl s => [trim s]
  | inr l => trim <$> l
  end.

(** The document after [$set] of the paths present in the update. *)
Definition apply_update (u : UpdateData) (p : Project.t) : Project.t :=
  Project.mk
    (default (Project.title p) (trim <$> title u))
    (default (Project.description p) (description u))
    (default (Project.image p) (image u))
    (default (Project.githubUrl p) (githubUrl u))
    (match liveUrl u with Some l => Some l | None => Project.liveUrl p end)
    (default (Project.tags p) (cast_tags <$> tags u))
    (default (Project.author p) (author u))
    (default (Project.likes p) (likes u))
    (default (Project.likesCount p) (likesCount u))
    (default (Project.commentsCount p) (commentsCount u)).

(** [Project.findByIdAndUpdate(id, updateData, { new: true })]: a query
    update, the save hook does not run. *)
Definition Project_findByIdAndUpdate (id : ObjectId) (u : UpdateData)
    : Handler (option Project.doc) :=
  λ db,
    let ps := alter (apply_update u) id (projects db) in
    (Continue (Project.Doc id <$> ps !! id), set_projects ps db).

(** [router.put("/:id", auth, ...)] *)
Definition put_id (req : Req UpdateData) : Handler Response :=
  project ← Project_findById (params_id req);
  match project with
  | None => respond (NotFound "Project not found")
  | Some project =>
      if bool_decide (Project.author project ≠ User._id (user req))
      then respond Unauthorized
      else
        let updateData := normalise_tags (reqBody req) in
        updatedProject ← Project_findByIdAndUpdate (params_id req) updateData;
        match updatedProject with
        | None => ret (Json 200 (ProjectJson None))
        | Some p =>
            a ← populate_author (Project.author p);
            ret (Json 200 (ProjectJson (Some (p, a))))
        end
  end.

(** [router.delete("/:id", auth, ...)] *)
Definition delete_id (req : Req ()) : Handler Response :=
  project ← Project_findById (params_id req);
  match project with
  | None => respond (NotFound "Project not found")
  | Some project =>
      if bool_decide (Project.author project ≠ User._id (user req))
      then respond Unauthorized
      else
        Comment_deleteMany (ByProject (params_id req));;
        Project_findByIdAndDelete (params_id req);;
        ret (Json 200 (Message "Project deleted successfully"))
  end.

(** [router.post("/:id/like", auth, ...)] *)
Definition post_id_like (req : Req ()) : Handler Response :=
  project ← Project_findById (params_id req);
  match project with
  | None => respond (NotFound "Project not found")
  | Some project =>
      let uid := User._id (user req) in
      let userLiked := bool_decide (uid ∈ Project.likes project) in
      let project :=
        if userLiked
        then Project.assign
               (Project.set_likes (filter (λ id, id ≠ uid) (Project.likes project)))
               project
        else Project.assign
               (Project.set_likes (Project.likes project ++ [uid])) project in
      project ← Project_save project;
      ret (Json 200 (LikeJson (negb userLiked) (Project.likesCount project)))
  end.

End ProjectRoutes.

(** [POST /] of routes/projects.js. *)
Module ProjectCreate.

(** The body of [POST /]:
    [{ title, description, image, githubUrl, liveUrl, tags }]; the
    validators have trimmed [title] and [description]; [tags] is absent,
    a string, or any other JSON value (an array, say). *)
Record PostBody := mkPost {
  title : string;
  description : string;
  image : string;
  githubUrl : string;
  liveUrl : option string;
  tags : option (string + list string)
}.

(** [tags ? tags.split(",").map((tag) => tag.trim()) : []]: an absent or
    empty [tags] gives no tag; a value that is not a string has no
    [split] and the call throws. *)
Definition parse_tags (tags : option (string + list string)) : option (list string) :=
  match tags with
  | None => Some []
  | Some (inl s) => if bool_decide (s = "") then Some [] else Some (trim <$> split_comma s)
  | Some (inr _) => None
  end.

(** [new Project({ title, ..., tags, author })]: the schema trims
    [title] and every tag; the liker array starts empty and the counters
    at their default. *)
Definition new_project (oid : ObjectId) (b : PostBody) (tags : list string)
    (author : ObjectId) : Project.doc :=
  Project.Doc oid
    (Project.mk (trim (title b)) (description b) (image b) (githubUrl b)
                (liveUrl b) (trim <$> tags) author [] 0 0).

(** [router.post("/", auth, [...], ...)]; [oid] is the [_id] that
    [new Project(..)] gives the document. *)
Definition post_root (req : Req PostBody) (oid : ObjectId) : Handler Response :=
  if bool_decide (validationErrors req ≠ [])
  then respond (ValidationFailure (validationErrors req))
  else
    match parse_tags (tags (reqBody req)) with
    | None => raise
    | Some tags =>
        project ← Project_insert
          (new_project oid (reqBody req) tags (User._id (user req)));
        a ← populate_author (Project.author project);
        ret (Json 201 (ProjectJson (Some (project, a))))
    end.

End ProjectCreate.

(** The pagination of the list routes ([GET /], [GET /user/:userId] of
    routes/projects.js, [GET /project/:projectId] of routes/comments.js). *)
Module Pagination.

(** [req.query] after [parseInt]: [None] is [NaN] (the parameter is
    absent or does not start with digits); the integers are those a
    [Number] holds exactly. *)
Record Query := mkQuery {
  q_page : option Z;
  q_limit : option Z
}.

(** [parseInt(x) || d]: [NaN] and [0] are falsy. *)
Definition or_default (v : option Z) (d : Z) : Z :=
  match v with
  | Some n => if bool_decide (n = 0) then d else n
  | None => d
  end.

(** [const page = parseInt(req.query.page) || 1] *)
Definition page (q : Query) : Z := or_default (q_page q) 1.

(** [const limit = parseInt(req.query.limit) || 10] *)
Definition limit (q : Query) : Z := or_default (q_limit q) 10.

(** [const skip = (page - 1) * limit] *)
Definition skip (q : Query) : Z := (page q - 1) * limit q.

(** [Math.ceil(total / limit)]; [limit] is never [0]. *)
Definition pages (q : Query) (total : Z) : Z := - ((- total) `div` limit q).

(** The [pagination] object of the response. *)
Record t := mk {
  p_page : Z;
  p_limit : Z;
  p_total : Z;
  p_pages : Z
}.

(** [{ page, limit, total, pages: Math.ceil(total / limit) }] *)
Definition pagination (q : Query) (total : Z) : t :=
  mk (page q) (limit q) total (pages q total).

End Pagination.

(** ** routes/comments.js *)

Module CommentRoutes.

(** The body of [POST /]: [{ content, projectId, parentCommentId }];
    the validators leave [parentCommentId] absent or a well-formed
    identifier. *)
Record PostBody := mkPost {
  content : string;
  projectId : ObjectId;
  parentCommentId : option ObjectId
}.

(** [router.post("/", auth, [...], ...)]; [oid] is the [_id] that
    [new Comment(..)] gives the document. *)
Definition post_root (req : Req PostBody) (oid : ObjectId) : Handler Response :=
  if bool_decide (validationErrors req ≠ [])
  then respond (ValidationFailure (validationErrors req))
  else
    let '(mkPost content projectId parentCommentId) := reqBody req in
    project ← Project_findById projectId;
    match project with
    | None => respond (NotFound "Project not found")
    | Some _ =>
        match parentCommentId with
        | Some pid =>
            parentComment ← Comment_findById pid;
            match parentComment with
            | None => respond (NotFound "Parent comment not found")
            | Some _ => ret ()
            end
        | None => ret ()
        end;;
        comment ← Comment_insert
          (Comment.new oid content (User._id (user req)) projectId parentCommentId);
        a ← populate_author (Comment.author comment);
        match parentCommentId with
        | Some pid => Comment_push_replies pid (Comment._id comment)
        | None => ret ()
        end;;
        Project_inc_commentsCount projectId 1;;
        ret (Json 201 (CommentJson comment a))
    end.

(** [router.put("/:id", auth, [...], ...)]; the body is [{ content }]. *)
Definition put_id (req : Req string) : Handler Response :=
  if bool_decide (validationErrors req ≠ [])
  then respond (ValidationFailure (validationErrors req))
  else
    comment ← Comment_findById (params_id req);
    match comment with
    | None => respond (NotFound "Comment not found")
    | Some comment =>
        if bool_decide (Comment.author comment ≠ User._id (user req))
        then respond Unauthorized
        else
          comment ← Comment_save
            (Comment.assign (Comment.set_content (reqBody req)) comment);
          a ← populate_author (Comment.author comment);
          ret (Json 200 (CommentJson comment a))
    end.

(** [router.delete("/:id", auth, ...)] *)
Definition delete_id (req : Req ()) : Handler Response :=
  comment ← Comment_findById (params_id req);
  match comment with
  | None => respond (NotFound "Comment not found")
  | Some comment =>
      if bool_decide (Comment.author comment ≠ User._id (user req))
      then respond Unauthorized
      else
        Comment_deleteMany (ByParentComment (params_id req));;
        match Comment.parentComment comment with
        | Some parent => Comment_pull_replies parent (params_id req)
        | None => ret ()
        end;;
        n ← Comment_countDocuments (ByParentComment (params_id req));
        let totalCommentsDeleted := n + 1 in
        Project_inc_commentsCount (Comment.project comment) (- totalCommentsDeleted);;
        Comment_findByIdAndDelete (params_id req);;
        ret (Json 200 (Message "Comment deleted successfully"))
  end.

(** [router.post("/:id/like", auth, ...)] *)
Definition post_id_like (req : Req ()) : Handler Response :=
  comment ← Comment_findById (params_id req);
  match comment with
  | None => respond (NotFound "Comment not found")
  | Some comment =>
      let uid := User._id (user req) in
      let userLiked := bool_decide (uid ∈ Comment.likes comment) in
      let comment :=
        if userLiked
        then Comment.assign
               (Comment.set_likes (filter (λ id, id ≠ uid) (Comment.likes comment)))
               comment
        else Comment.assign
               (Comment.set_likes (Comment.likes comment ++ [uid])) comment in
      comment ← Comment_save comment;
      ret (Json 200 (LikeJson (negb userLiked) (Comment.likesCount comment)))
  end.

End CommentRoutes.

(** ** routes/user.js *)

Module UserRoutes.

(** The body of [PUT /profile]:
    [{ username, bio, avatar, githubProfile, portfolio }]. *)
Record ProfileBody := mkProfile {
  username : option string;
  bio : option string;
  avatar : option string;
  githubProfile : option string;
  portfolio : option string
}.

(** The document after the update: an [undefined] key is left out of
    the [$set], the schema trims [username]. *)
Definition apply_update (b : ProfileBody) (u : User.t) : User.t :=
  User.mk
    (default (User.username u) (trim <$> username b))
    (User.email u)
    (User.password u)
    (default (User.avatar u) (avatar b))
    (default (User.bio u) (bio b))
    (default (User.githubProfile u) (githubProfile b))
    (default (User.portfolio u) (portfolio b)).

(** The unique index of [username] (schema option [unique: true]): a
    write that gives the document [id] a username that another document
    bears is refused. *)
Definition username_index_refuses (id : ObjectId) (n : string)
    (us : gmap N User.t) : Prop :=
  map_Exists (λ k u, k ≠ id ∧ User.username u = n) us.

(** [User.findByIdAndUpdate(id, {...}, { new: true })] *)
Definition User_findByIdAndUpdate (id : ObjectId) (b : ProfileBody)
    : Handler (option User.doc) :=
  λ db,
    match users db !! id with
    | None => (Continue None, db)
    | Some u =>
        let u' := apply_update b u in
        if bool_decide (User.username u' ≠ User.username u
                        ∧ username_index_refuses id (User.username u') (users db))
        then raise db
        else (Continue (Some (User.Doc id u')),
              set_users (<[id := u']> (users db)) db)
    end.

(** [.select("-password")] *)
Definition select_no_password (u : User.doc) : UserView :=
  mkUserView (User._id u) (User.username u) (User.email u) (User.avatar u)
             (User.bio u) (User.githubProfile u) (User.portfolio u).

(** [router.put("/profile", auth, [...], ...)] *)
Definition put_profile (req : Req ProfileBody) : Handler Response :=
  if bool_decide (validationErrors req ≠ [])
  then respond (ValidationFailure (validationErrors req))
  else
    match username (reqBody req) with
    | Some n =>
        if bool_decide (n ≠ "" ∧ n ≠ User.username (user req))
        then
          existingUser ← User_findOne_username n;
          match existingUser with
          | Some _ => respond Conflict
          | None => ret ()
          end
        else ret ()
    | None => ret ()
    end;;
    updatedUser ← User_findByIdAndUpdate (User._id (user req)) (reqBody req);
    ret (Json 200 (UserJson (select_no_password <$> updatedUser))).

End UserRoutes.

(** ** Vocabulary of the properties *)

(** The database a handler leaves, and its response. *)
Definition after (h : Handler Response) (db : Db) : Db := (run h db).2.
Definition response (h : Handler Response) (db : Db) : Response := (run h db).1.

(** The derived-counter invariant of a project and of a comment. *)
Definition project_likes_consistent (p : Project.t) : Prop :=
  Project.likesCount p = Z.of_nat (length (Project.likes p)).
Definition comment_likes_consistent (c : Comment.t) : Prop :=
  Comment.likesCount c = Z.of_nat (length (Comment.likes c)).

(** The comments whose parent reference is [c]. *)
Definition children (db : Db) (c : ObjectId) : gmap N Comment.t :=
  filter (λ kc, matches (ByParentComment c) kc.2) (comments db).

(** The reply-reference set of a comment document. *)
Definition replySet (c : Comment.t) : gset N := list_to_set (Comment.replies c).

(** The reply set of [c] is exactly the set of comments whose parent
    reference is [c]. *)
Definition replies_match (db : Db) (c : ObjectId) (cd : Comment.t) : Prop :=
  replySet cd = dom (children db c).

#[global] Instance replies_match_dec db c cd : Decision (replies_match db c cd).
Proof. unfold replies_match. apply _. Defined.

(** The parent of [r], when [r] has one and it is stored, is top-level. *)
Definition parent_top_level (db : Db) (r : Comment.t) : bool :=
  match Comment.parentComment r with
  | None => true
  | Some p =>
      match comments db !! p with
      | None => true
      | Some pd => bool_decide (Comment.parentComment pd = None)
      end
  end.

(** At most two levels of nesting: no stored comment replies to a reply. *)
Definition two_levels (db : Db) : Prop :=
  map_Forall (λ _ r, parent_top_level db r = true) (comments db).

#[global] Instance two_levels_dec db : Decision (two_levels db).
Proof. unfold two_levels. apply _. Defined.

(** [n] successive like toggles of one request. *)
Definition toggles (req : Req ()) (n : nat) (db : Db) : Db :=
  Nat.iter n (after (ProjectRoutes.post_id_like req)) db.

(** The comment [POST /] builds from its request. *)
Definition new_comment (req : Req CommentRoutes.PostBody) (oid : ObjectId) : Comment.doc :=
  Comment.new oid (CommentRoutes.content (reqBody req)) (User._id (user req))
              (CommentRoutes.projectId (reqBody req))
              (CommentRoutes.parentCommentId (reqBody req)).

(** The collection of comments after a successful create. *)
Definition comments_after_create (db : Db) (req : Req CommentRoutes.PostBody)
    (oid : ObjectId) : gmap N Comment.t :=
  let cs := <[oid := Comment.fields (new_comment req oid)]> (comments db) in
  match CommentRoutes.parentCommentId (reqBody req) with
  | Some pid => alter (push_reply oid) pid cs
  | None => cs
  end.

(** The collection of comments after a successful delete of the comment
    [c] stored under [id]. *)
Definition comments_after_delete (db : Db) (id : ObjectId) (c : Comment.t)
    : gmap N Comment.t :=
  let cs := filter (λ kc, ¬ matches (ByParentComment id) kc.2) (comments db) in
  let cs := match Comment.parentComment c with
            | Some parent => alter (pull_reply id) parent cs
            | None => cs
            end in
  delete id cs.

(** The liker array after a toggle by [uid]. *)
Definition toggle_likes (uid : ObjectId) (l : list ObjectId) : list ObjectId :=
  if bool_decide (uid ∈ l) then filter (λ id, id ≠ uid) l else l ++ [uid].

(** The project and the comment a like toggle by [uid] saves. *)
Definition liked_project (uid : ObjectId) (p : Project.t) : Project.t :=
  let l := toggle_likes uid (Project.likes p) in
  Project.set_likesCount (Z.of_nat (length l)) (Project.set_likes l p).
Definition liked_comment (uid : ObjectId) (c : Comment.t) : Comment.t :=
  let l := toggle_likes uid (Comment.likes c) in
  Comment.set_likesCount (Z.of_nat (length l)) (Comment.set_likes l c).

(** [PUT /profile] without its uniqueness check: the write and the
    answer. *)
Definition profile_write (req : Req UserRoutes.ProfileBody) : Handler Response :=
  updatedUser ← UserRoutes.User_findByIdAndUpdate (User._id (user req)) (reqBody req);
  ret (Json 200 (UserJson (UserRoutes.select_no_password <$> updatedUser))).

(** The comment [PUT /:id] saves. *)
Definition edited_comment (content : string) (c : Comment.t) : Comment.t :=
  Comment.set_likesCount (Z.of_nat (length (Comment.likes c)))
    (Comment.set_content content c).

(** The comments attached to the project [pid], and the agreement of
    the counter of a project document with them. *)
Definition comments_of (db : Db) (pid : ObjectId) : gmap N Comment.t :=
  filter (λ kc, matches (ByProject pid) kc.2) (comments db).
Definition counter_agrees (db : Db) (pid : ObjectId) (p : Project.t) : Prop :=
  Project.commentsCount p = Z.of_nat (size (comments_of db pid)).

(** The counter of the project is an integer of magnitude below [2^53]:
    one more and one less are doubles, so an [$inc] by one is exact. *)
Definition safe_counter (p : Project.t) : Prop :=
  (Z.abs (Project.commentsCount p) < 2 ^ 53)%Z.

#[global] Instance safe_counter_dec p : Decision (safe_counter p).
Proof. unfold safe_counter. apply _. Defined.

(** No stored comment and no reply array refers to [oid]: the
    identifier was never used. *)
Definition unused_id (db : Db) (oid : ObjectId) : Prop :=
  comments db !! oid = None
  ∧ map_Forall (λ _ c, Comment.parentComment c ≠ Some oid
                       ∧ oid ∉ Comment.replies c) (comments db).

#[global] Instance unused_id_dec db oid : Decision (unused_id db oid).
Proof. unfold unused_id. apply _. Defined.

(** The identity [req.user] is the account stored under its [_id]. *)
Definition authenticated {B} (db : Db) (req : Req B) : Prop :=
  users db !! User._id (user req) = Some (User.fields (user req)).

(** A response of the 4xx class. *)
Definition client_error (r : Response) : Prop :=
  (400 ≤ status r < 500)%nat.

(** The two directions of the comment linkage agree for every stored
    comment: its reply set is the set of comments whose parent reference
    it is. *)
Definition linked (db : Db) : Prop :=
  map_Forall (λ c cd, replies_match db c cd) (comments db).

#[global] Instance linked_dec db : Decision (linked db).
Proof. unfold linked, replies_match. apply _. Defined.

(** The comment [r] is attached to the project of its parent, when it
    has a parent and the parent is stored. *)
Definition in_project_of_parent (db : Db) (r : Comment.t) : bool :=
  match Comment.parentComment r with
  | None => true
  | Some p =>
      match comments db !! p with
      | None => true
      | Some pd => bool_decide (Comment.project r = Comment.project pd)
      end
  end.

(** Every stored reply is attached to the project of its parent. *)
Definition replies_in_project (db : Db) : Prop :=
  map_Forall (λ _ r, in_project_of_parent db r = true) (comments db).

#[global] Instance replies_in_project_dec db : Decision (replies_in_project db).
Proof. unfold replies_in_project. apply _. Defined.


(** ** The scenario of the specification *)

Module Scenario.

Definition user (id : ObjectId) (name : string) : User.doc :=
  User.Doc id (User.mk name (name +:+ "@example.org") "$2a$10$hash" "" "" "" "").

Definition U1 := user 1 "ana".
Definition U2 := user 2 "ben".
Definition U3 := user 3 "cyd".

(** Project A of author U1, with tags "web, api", as first saved. *)
Definition A : Project.t :=
  Project.mk "A" "a project" "http://img.example/a.png"
             "http://github.com/ana/a" None ["web"; "api"] 1 [] 0 0.

Definition db0 : Db :=
  mkDb {[ 1%N := User.fields U1; 2%N := User.fields U2; 3%N := User.fields U3 ]}
       {[ 10%N := A ]} ∅.

Definition as_user {B} (u : User.doc) (id : ObjectId) (b : B) : Req B :=
  mkReq [] u id b.

(** U2 comments on A (comment 20), U3 replies to it (comment 21). *)
Definition db1 : Db :=
  (run (CommentRoutes.post_root
          (as_user U2 0%N (CommentRoutes.mkPost "nice" 10%N None)) 20%N) db0).2.

Definition db2 : Db :=
  (run (CommentRoutes.post_root
          (as_user U3 0%N (CommentRoutes.mkPost "indeed" 10%N (Some 20%N))) 21%N) db1).2.

(** U2 deletes comment 20. *)
Definition db3 : Db :=
  (run (CommentRoutes.delete_id (as_user U2 20%N ())) db2).2.

(** U1 replies to the reply 21 (comment 22). *)
Definition reply_to_reply : Response * Db :=
  run (CommentRoutes.post_root
         (as_user U1 0%N (CommentRoutes.mkPost "+1" 10%N (Some 21%N))) 22%N) db2.

(** The comment of U2 as first stored, as stored once U3 has replied,
    and the reply of U3. *)
Definition C1 : Comment.t := Comment.mk "nice" 2 10 None [] [] 0.
Definition C1' : Comment.t := Comment.mk "nice" 2 10 None [21%N] [] 0.
Definition R1 : Comment.t := Comment.mk "indeed" 3 10 (Some 20%N) [] [] 0.

Definition comment_C1 : Req CommentRoutes.PostBody :=
  as_user U2 0%N (CommentRoutes.mkPost "nice" 10%N None).
Definition reply_R1 : Req CommentRoutes.PostBody :=
  as_user U3 0%N (CommentRoutes.mkPost "indeed" 10%N (Some 20%N)).
Definition delete_C1 : Req () := as_user U2 20%N ().
Definition delete_R1 : Req () := as_user U3 21%N ().

(** U3 replies to a comment that does not exist. *)
Definition reply_nowhere : Req CommentRoutes.PostBody :=
  as_user U3 0%N (CommentRoutes.mkPost "hello?" 10%N (Some 99%N)).

(** U2 asks for the username of U1; U2 sends a new bio along with the
    username U2 already has. *)
Definition take_ana : Req UserRoutes.ProfileBody :=
  as_user U2 0%N (UserRoutes.mkProfile (Some "ana") None None None None).
Definition keep_ben : Req UserRoutes.ProfileBody :=
  as_user U2 0%N (UserRoutes.mkProfile (Some "ben") (Some "hi") None None None).

(** U3, who wrote neither, edits and deletes project A and comment 20. *)
Definition U3_edits_A : Req ProjectRoutes.UpdateData :=
  as_user U3 10%N
    (ProjectRoutes.mkUpdate (Some "mine") None None None None None None None None None).
Definition U3_deletes_A : Req () := as_user U3 10%N ().
Definition U3_edits_C1 : Req string := as_user U3 20%N "edited".
Definition U3_deletes_C1 : Req () := as_user U3 20%N ().

(** U2 edits comment 20. *)
Definition U2_edits_C1 : Req string := as_user U2 20%N "very nice".

(** U1 likes project A. *)
Definition like_A : Req () := as_user U1 10%N ().
Definition db_liked : Db := after (ProjectRoutes.post_id_like like_A) db0.

(** The author of A sends [{ likesCount: 5 }] to [PUT /:id]. *)
Definition put_likesCount : Req ProjectRoutes.UpdateData :=
  as_user U1 10%N
    (ProjectRoutes.mkUpdate None None None None None None None None (Some 5) None).
Definition db_stale : Db := after (ProjectRoutes.put_id put_likesCount) db0.

(** The author of A sends [{ title: "", likesCount: 5 }] to [PUT /:id]:
    the stored project then violates [required] on [title]. *)
Definition put_empty_title : Req ProjectRoutes.UpdateData :=
  as_user U1 10%N
    (ProjectRoutes.mkUpdate (Some "") None None None None None None None (Some 5) None).
Definition db_invalid : Db := after (ProjectRoutes.put_id put_empty_title) db0.
Definition A_invalid : Project.t :=
  Project.mk "" "a project" "http://img.example/a.png"
             "http://github.com/ana/a" None ["web"; "api"] 1 [] 5 0.

(** The author of A sends [{ likes: [U2, U2] }] to [PUT /:id]. *)
Definition put_likes_twice : Req ProjectRoutes.UpdateData :=
  as_user U1 10%N
    (ProjectRoutes.mkUpdate None None None None None None None
                            (Some [2%N; 2%N]) None None).
Definition db_twice : Db := after (ProjectRoutes.put_id put_likes_twice) db0.

(** The author of A sends [{ commentsCount: 2^53 }] to [PUT /:id]. *)
Definition put_big_count : Req ProjectRoutes.UpdateData :=
  as_user U1 10%N
    (ProjectRoutes.mkUpdate None None None None None None None None None
                            (Some (2 ^ 53)%Z)).
Definition db_big : Db := after (ProjectRoutes.put_id put_big_count) db0.

(** The author of A hands the project over to U2. *)
Definition give_A_to_U2 : Req ProjectRoutes.UpdateData :=
  as_user U1 10%N
    (ProjectRoutes.mkUpdate None None None None None None (Some 2%N) None None None).


(** U2 creates project B (project 11) with the tags "web, api". *)
Definition create_B : Req ProjectCreate.PostBody :=
  as_user U2 0%N
    (ProjectCreate.mkPost "B" "another project" "http://img.example/b.png"
                          "http://github.com/ben/b" None (Some (inl "web, api"))).

(** Project B exists next to A, comment 20 and its reply 21; U1 replies
    to comment 20 of A under project B (comment 22); U2 deletes B, and
    with it comment 22; U3 replies once more to comment 20 under A
    (comment 23). *)
Definition db_B : Db := after (ProjectCreate.post_root create_B 11%N) db2.
Definition reply_across : Req CommentRoutes.PostBody :=
  as_user U1 0%N (CommentRoutes.mkPost "see B" 11%N (Some 20%N)).
Definition db_across : Db := after (CommentRoutes.post_root reply_across 22%N) db_B.
Definition delete_B : Req () := as_user U2 11%N ().
Definition db_dangling : Db := after (ProjectRoutes.delete_id delete_B) db_across.
Definition reply_again : Req CommentRoutes.PostBody :=
  as_user U3 0%N (CommentRoutes.mkPost "again" 10%N (Some 20%N)).


(** Next to A with its comments 20 and 21, project B with the comment
    30 of U1 and the reply 31 of U3; then U1 deletes A. *)
Definition comment_on_B : Req CommentRoutes.PostBody :=
  as_user U1 0%N (CommentRoutes.mkPost "hello" 11%N None).
Definition reply_on_B : Req CommentRoutes.PostBody :=
  as_user U3 0%N (CommentRoutes.mkPost "hi" 11%N (Some 30%N)).
Definition db_two : Db :=
  after (CommentRoutes.post_root reply_on_B 31%N)
        (after (CommentRoutes.post_root comment_on_B 30%N) db_B).
Definition delete_A : Req () := as_user U1 10%N ().

(** U2 renames the account to a free username. *)
Definition rename_ben : Req UserRoutes.ProfileBody :=
  as_user U2 0%N (UserRoutes.mkProfile (Some "benny") None None None None).

End Scenario.


(** ** Running the handlers *)

Ltac unfold_handler :=
  unfold after, response, run,
    ProjectRoutes.put_id, ProjectRoutes.delete_id, ProjectRoutes.post_id_like,
    CommentRoutes.post_root, CommentRoutes.put_id, CommentRoutes.delete_id,
    CommentRoutes.post_id_like, UserRoutes.put_profile,
    bind, ret, respond, raise, modify,
    Project_findById, Project_save, Project_inc_commentsCount,
    Project_findByIdAndDelete, ProjectRoutes.Project_findByIdAndUpdate,
    Comment_findById, Comment_insert, Comment_save, Comment_push_replies,
    Comment_pull_replies, Comment_deleteMany, Comment_countDocuments,
    Comment_findByIdAndDelete, populate_author, User_findOne_username,
    UserRoutes.User_findByIdAndUpdate in *.

Section CreateComment.
Context (db : Db) (req : Req CommentRoutes.PostBody) (oid : ObjectId).

Local Abbreviation projectId := (CommentRoutes.projectId (reqBody req)).
Local Abbreviation parentCommentId := (CommentRoutes.parentCommentId (reqBody req)).

Lemma post_root_invalid :
  validationErrors req ≠ [] →
  run (CommentRoutes.post_root req oid) db
  = (ValidationFailure (validationErrors req), db).
Proof.
  intros H. unfold_handler. by rewrite bool_decide_true.
Qed.

Lemma post_root_no_project :
  validationErrors req = [] →
  projects db !! projectId = None →
  run (CommentRoutes.post_root req oid) db = (NotFound "Project not found", db).
Proof.
  intros Hv Hp. unfold_handler. rewrite bool_decide_false by (by rewrite Hv; intros []).
  destruct (reqBody req) as [c pj pa]; simpl in *.
  by rewrite Hp.
Qed.

Lemma post_root_no_parent pid :
  validationErrors req = [] →
  is_Some (projects db !! projectId) →
  parentCommentId = Some pid →
  comments db !! pid = None →
  run (CommentRoutes.post_root req oid) db
  = (NotFound "Parent comment not found", db).
Proof.
  intros Hv [p Hp] Hpa Hc. unfold_handler.
  rewrite bool_decide_false by (by rewrite Hv; intros []).
  destruct (reqBody req) as [c pj pa]; simpl in *.
  subst pa. rewrite Hp; simpl. by rewrite Hc.
Qed.

Lemma post_root_duplicate :
  validationErrors req = [] →
  is_Some (projects db !! projectId) →
  (∀ pid, parentCommentId = Some pid → is_Some (comments db !! pid)) →
  is_Some (comments db !! oid) →
  run (CommentRoutes.post_root req oid) db = (UnexpectedFailure, db).
Proof.
  intros Hv [p Hp] Hpa [c0 Hc0]. unfold_handler.
  rewrite bool_decide_false by (by rewrite Hv; intros []).
  destruct (reqBody req) as [c pj pa]; simpl in *.
  rewrite Hp; simpl.
  destruct pa as [pid|]; simpl.
  - destruct (Hpa pid eq_refl) as [pc Hpc]. rewrite Hpc; simpl. by rewrite Hc0.
  - by rewrite Hc0.
Qed.

Lemma post_root_created :
  validationErrors req = [] →
  is_Some (projects db !! projectId) →
  (∀ pid, parentCommentId = Some pid → is_Some (comments db !! pid)) →
  comments db !! oid = None →
  run (CommentRoutes.post_root req oid) db
  = (Json 201 (CommentJson (new_comment req oid)
                 ((λ u, mkAuthor (User._id (user req)) (User.username u) (User.avatar u))
                    <$> users db !! User._id (user req))),
     mkDb (users db)
          (alter (inc_commentsCount 1) projectId (projects db))
          (comments_after_create db req oid)).
Proof.
  intros Hv [p Hp] Hpa Hc0. unfold_handler.
  unfold comments_after_create, new_comment.
  rewrite bool_decide_false by (by rewrite Hv; intros []).
  destruct (reqBody req) as [c pj pa]; simpl in *.
  rewrite Hp; simpl.
  destruct pa as [pid|]; simpl.
  - destruct (Hpa pid eq_refl) as [pc Hpc]. rewrite Hpc; simpl. by rewrite Hc0.
  - by rewrite Hc0.
Qed.

(** The outcomes above are the only ones: a create answers 201 exactly
    when the request is valid, the project exists, the parent (if any)
    exists and the new identifier is free. *)
Lemma post_root_201 :
  status (response (CommentRoutes.post_root req oid) db) = 201%nat →
  validationErrors req = []
  ∧ is_Some (projects db !! projectId)
  ∧ (∀ pid, parentCommentId = Some pid → is_Some (comments db !! pid))
  ∧ comments db !! oid = None.
Proof.
  unfold response. intros H.
  destruct (decide (validationErrors req = [])) as [Hv|Hv];
    [|by rewrite post_root_invalid in H].
  destruct (projects db !! projectId) as [p|] eqn:Hp;
    [|by rewrite post_root_no_project in H].
  assert (∀ pid, parentCommentId = Some pid → is_Some (comments db !! pid)) as Hpa.
  { intros pid Hpid. destruct (comments db !! pid) eqn:Hc; [by eexists|].
    rewrite (post_root_no_parent pid) in H; eauto; discriminate. }
  destruct (comments db !! oid) eqn:Hc0.
  - rewrite post_root_duplicate in H; eauto; discriminate.
  - eauto.
Qed.
End CreateComment.

Section DeleteComment.
Context (db : Db) (req : Req ()).

Local Abbreviation id := (params_id req).

(** No comment refers to [id] as its parent once the replies of [id]
    are deleted, whatever happens to the reply arrays afterwards. *)
Lemma no_child_after_deleteMany (f : Comment.t → Comment.t) (k : ObjectId) :
  (∀ c, Comment.parentComment (f c) = Comment.parentComment c) →
  filter (λ kc, matches (ByParentComment id) kc.2)
    (alter f k (filter (λ kc, ¬ matches (ByParentComment id) kc.2) (comments db)))
  = ∅.
Proof.
  intros Hf. apply map_empty_filter. intros j c Hj Hm; simpl in *.
  rewrite lookup_alter in Hj. case_decide; simplify_eq.
  - destruct (filter _ (comments db) !! j) as [c'|] eqn:Hc'; simplify_eq/=.
    rewrite Hf in Hm. apply map_lookup_filter_Some in Hc' as [_ Hn]. by apply Hn.
  - apply map_lookup_filter_Some in Hj as [_ Hn]. by apply Hn.
Qed.

Lemma delete_id_no_comment :
  comments db !! id = None →
  run (CommentRoutes.delete_id req) db = (NotFound "Comment not found", db).
Proof. intros H. unfold_handler. by rewrite H. Qed.

Lemma delete_id_not_author c :
  comments db !! id = Some c →
  Comment.author c ≠ User._id (user req) →
  run (CommentRoutes.delete_id req) db = (Unauthorized, db).
Proof.
  intros H Ha. unfold_handler. rewrite H; simpl. by rewrite bool_decide_true.
Qed.

Lemma delete_id_deleted c :
  comments db !! id = Some c →
  Comment.author c = User._id (user req) →
  run (CommentRoutes.delete_id req) db
  = (Json 200 (Message "Comment deleted successfully"),
     mkDb (users db)
          (alter (inc_commentsCount (-1)) (Comment.project c) (projects db))
          (comments_after_delete db id c)).
Proof.
  intros H Ha. unfold_handler. unfold comments_after_delete.
  rewrite H; simpl. rewrite bool_decide_false by naive_solver.
  destruct (Comment.parentComment c) as [parent|] eqn:Hpa; simpl.
  - pose proof (no_child_after_deleteMany (pull_reply id) parent) as E.
    simpl in E. unfold pull_reply in E |- *. rewrite E by done.
    by rewrite map_size_empty.
  - pose proof (no_child_after_deleteMany (λ x, x) id) as E.
    simpl in E. rewrite alter_id in E by done. rewrite E by done.
    by rewrite map_size_empty.
Qed.
End DeleteComment.

Section LikeToggle.
Context (db : Db) (req : Req ()).

#[local] Arguments Project_validate_dec : simpl never.

Local Abbreviation id := (params_id req).
Local Abbreviation uid := (User._id (user req)).

Lemma toggle_likes_NoDup (u : ObjectId) (l : list ObjectId) :
  NoDup l → NoDup (toggle_likes u l).
Proof.
  intros Hl. unfold toggle_likes. case_bool_decide as Hu.
  - by apply NoDup_filter.
  - apply NoDup_app. split_and!; [done| |apply NoDup_singleton].
    intros x Hx ->%list_elem_of_singleton. done.
Qed.

Lemma toggle_likes_elem_of (u x : ObjectId) (l : list ObjectId) :
  x ∈ toggle_likes u l ↔ (x ∈ l ∧ x ≠ u) ∨ (x = u ∧ u ∉ l).
Proof.
  unfold toggle_likes. case_bool_decide as Hu.
  - rewrite list_elem_of_filter. naive_solver.
  - rewrite elem_of_app, list_elem_of_singleton.
    destruct (decide (x = u)); naive_solver.
Qed.

Lemma toggle_likes_twice (u : ObjectId) (l : list ObjectId) :
  u ∉ l → toggle_likes u (toggle_likes u l) = l.
Proof.
  intros Hu. unfold toggle_likes at 2. rewrite bool_decide_false by done.
  unfold toggle_likes. rewrite bool_decide_true by set_solver.
  rewrite filter_app, filter_cons_False, filter_nil, app_nil_r by naive_solver.
  clear -Hu. induction l as [|x l IH]; [done|].
  apply not_elem_of_cons in Hu as [Hx Hu].
  rewrite filter_cons_True by done. by rewrite IH.
Qed.

Lemma project_post_id_like_no_project :
  projects db !! id = None →
  run (ProjectRoutes.post_id_like req) db = (NotFound "Project not found", db).
Proof. intros H. unfold_handler. by rewrite H. Qed.

Lemma project_post_id_like_saved p :
  projects db !! id = Some p →
  Project_validate p →
  run (ProjectRoutes.post_id_like req) db
  = (Json 200 (LikeJson (negb (bool_decide (uid ∈ Project.likes p)))
                        (Project.likesCount (liked_project uid p))),
     set_projects (<[id := liked_project uid p]> (projects db)) db).
Proof.
  intros H Hv. unfold_handler. unfold liked_project, toggle_likes.
  rewrite H; simpl.
  destruct (bool_decide (uid ∈ Project.likes p)); simpl;
    by rewrite bool_decide_true by exact Hv.
Qed.

(** The save of the toggle runs the validators of the schema on the
    stored document: when it violates one, the answer is 500 and nothing
    is written. *)
Lemma project_post_id_like_invalid p :
  projects db !! id = Some p →
  ¬ Project_validate p →
  run (ProjectRoutes.post_id_like req) db = (UnexpectedFailure, db).
Proof.
  intros H Hv. unfold_handler.
  rewrite H; simpl.
  destruct (bool_decide (uid ∈ Project.likes p)); simpl;
    by rewrite bool_decide_false by exact Hv.
Qed.

Lemma comment_post_id_like_no_comment :
  comments db !! id = None →
  run (CommentRoutes.post_id_like req) db = (NotFound "Comment not found", db).
Proof. intros H. unfold_handler. by rewrite H. Qed.

Lemma comment_post_id_like_saved c :
  comments db !! id = Some c →
  run (CommentRoutes.post_id_like req) db
  = (Json 200 (LikeJson (negb (bool_decide (uid ∈ Comment.likes c)))
                        (Comment.likesCount (liked_comment uid c))),
     set_comments (<[id := liked_comment uid c]> (comments db)) db).
Proof.
  intros H. unfold_handler. unfold liked_comment, toggle_likes.
  rewrite H; simpl. by case_bool_decide.
Qed.
End LikeToggle.

Section UpdateComment.
Context (db : Db) (req : Req string).

Local Abbreviation id := (params_id req).

Lemma comment_put_id_invalid :
  validationErrors req ≠ [] →
  run (CommentRoutes.put_id req) db = (ValidationFailure (validationErrors req), db).
Proof. intros H. unfold_handler. by rewrite bool_decide_true. Qed.

Lemma comment_put_id_no_comment :
  validationErrors req = [] →
  comments db !! id = None →
  run (CommentRoutes.put_id req) db = (NotFound "Comment not found", db).
Proof.
  intros Hv H. unfold_handler.
  rewrite bool_decide_false by (by rewrite Hv; intros []). by rewrite H.
Qed.

Lemma comment_put_id_not_author c :
  validationErrors req = [] →
  comments db !! id = Some c →
  Comment.author c ≠ User._id (user req) →
  run (CommentRoutes.put_id req) db = (Unauthorized, db).
Proof.
  intros Hv H Ha. unfold_handler.
  rewrite bool_decide_false by (by rewrite Hv; intros []).
  rewrite H; simpl. by rewrite bool_decide_true.
Qed.

Lemma comment_put_id_saved c :
  validationErrors req = [] →
  comments db !! id = Some c →
  Comment.author c = User._id (user req) →
  run (CommentRoutes.put_id req) db
  = (Json 200 (CommentJson (Comment.Doc id (edited_comment (reqBody req) c))
                 ((λ u, mkAuthor (Comment.author c) (User.username u) (User.avatar u))
                    <$> users db !! Comment.author c)),
     set_comments (<[id := edited_comment (reqBody req) c]> (comments db)) db).
Proof.
  intros Hv H Ha. unfold_handler.
  rewrite bool_decide_false by (by rewrite Hv; intros []).
  rewrite H; simpl. rewrite bool_decide_false by (by intros []). done.
Qed.

(** Whatever the request, the handler leaves the state alone unless it
    saves the comment. *)
Lemma comment_put_id_frame :
  status (response (CommentRoutes.put_id req) db) ≠ 200%nat →
  after (CommentRoutes.put_id req) db = db.
Proof.
  unfold after, response. intros Hs.
  destruct (decide (validationErrors req = [])) as [Hv|Hv];
    [|by rewrite comment_put_id_invalid].
  destruct (comments db !! id) as [c|] eqn:Hc;
    [|by rewrite comment_put_id_no_comment].
  destruct (decide (Comment.author c = User._id (user req))) as [Ha|Ha];
    [|by rewrite (comment_put_id_not_author c)].
  by rewrite (comment_put_id_saved c) in Hs.
Qed.
End UpdateComment.

Section ProjectAuthor.
Context (db : Db).

Lemma project_put_id_not_author (req : Req ProjectRoutes.UpdateData) p :
  projects db !! params_id req = Some p →
  Project.author p ≠ User._id (user req) →
  run (ProjectRoutes.put_id req) db = (Unauthorized, db).
Proof.
  intros H Ha. unfold_handler. rewrite H; simpl. by rewrite bool_decide_true.
Qed.

Lemma project_put_id_no_project (req : Req ProjectRoutes.UpdateData) :
  projects db !! params_id req = None →
  run (ProjectRoutes.put_id req) db = (NotFound "Project not found", db).
Proof. intros H. unfold_handler. by rewrite H. Qed.

Lemma project_put_id_updated (req : Req ProjectRoutes.UpdateData) p :
  projects db !! params_id req = Some p →
  Project.author p = User._id (user req) →
  after (ProjectRoutes.put_id req) db
  = set_projects
      (<[params_id req :=
           ProjectRoutes.apply_update (ProjectRoutes.normalise_tags (reqBody req)) p]>
         (projects db)) db.
Proof.
  intros H Ha. unfold_handler. rewrite H; simpl.
  rewrite bool_decide_false by (by intros []). simpl.
  rewrite lookup_alter_eq, H; simpl.
  f_equal. apply map_eq. intros k.
  rewrite lookup_alter, lookup_insert. case_decide; subst; by rewrite ?H.
Qed.

Lemma project_delete_id_not_author (req : Req ()) p :
  projects db !! params_id req = Some p →
  Project.author p ≠ User._id (user req) →
  run (ProjectRoutes.delete_id req) db = (Unauthorized, db).
Proof.
  intros H Ha. unfold_handler. rewrite H; simpl. by rewrite bool_decide_true.
Qed.

Lemma project_delete_id_no_project (req : Req ()) :
  projects db !! params_id req = None →
  run (ProjectRoutes.delete_id req) db = (NotFound "Project not found", db).
Proof. intros H. unfold_handler. by rewrite H. Qed.

Lemma project_delete_id_deleted (req : Req ()) p :
  projects db !! params_id req = Some p →
  Project.author p = User._id (user req) →
  run (ProjectRoutes.delete_id req) db
  = (Json 200 (Message "Project deleted successfully"),
     mkDb (users db) (delete (params_id req) (projects db))
          (filter (λ kc, ¬ matches (ByProject (params_id req)) kc.2) (comments db))).
Proof.
  intros H Ha. unfold_handler. rewrite H; simpl.
  by rewrite bool_decide_false by (by intros []).
Qed.
End ProjectAuthor.

Section UpdateProfile.
Context (db : Db) (req : Req UserRoutes.ProfileBody).

(** [User.findOne({ username })] finds a document as soon as one
    account bears the name. *)
Lemma User_findOne_username_taken n k u :
  users db !! k = Some u → User.username u = n →
  ∃ d, User_findOne_username n db = (Continue (Some d), db)
       ∧ User.username d = n.
Proof.
  intros Hk Hn. unfold User_findOne_username.
  destruct (map_to_list (filter (λ ku, User.username ku.2 = n) (users db)))
    as [|[k' u'] l] eqn:Hl.
  - apply map_to_list_empty_iff in Hl.
    assert (filter (λ ku, User.username ku.2 = n) (users db) !! k = Some u) as Hf
      by (by apply map_lookup_filter_Some).
    by rewrite Hl, lookup_empty in Hf.
  - simpl. eexists; split; [done|]. simpl.
    assert ((k', u') ∈ map_to_list
              (filter (λ ku, User.username ku.2 = n) (users db))) as Hin
      by (rewrite Hl; left).
    apply elem_of_map_to_list, map_lookup_filter_Some in Hin as [_ Hu]. done.
Qed.

Lemma User_findOne_username_free n :
  (∀ k u, users db !! k = Some u → User.username u ≠ n) →
  User_findOne_username n db = (Continue None, db).
Proof.
  intros Hfree. unfold User_findOne_username.
  replace (filter (λ ku, User.username ku.2 = n) (users db)) with (∅ : gmap N User.t).
  - by rewrite map_to_list_empty.
  - symmetry. apply map_empty_filter. intros k u Hk. by apply Hfree in Hk.
Qed.

(** The write of the handler. *)
Lemma put_profile_invalid :
  validationErrors req ≠ [] →
  run (UserRoutes.put_profile req) db = (ValidationFailure (validationErrors req), db).
Proof. intros H. unfold_handler. by rewrite bool_decide_true. Qed.

Lemma put_profile_conflict n k u :
  validationErrors req = [] →
  UserRoutes.username (reqBody req) = Some n →
  n ≠ "" →
  n ≠ User.username (user req) →
  users db !! k = Some u → User.username u = n →
  run (UserRoutes.put_profile req) db = (Conflict, db).
Proof.
  intros Hv Hb Hn Hne Hk Hu.
  destruct (User_findOne_username_taken n k u Hk Hu) as (d & Hd & _).
  unfold UserRoutes.put_profile, run, bind, respond, ret.
  rewrite bool_decide_false by (by rewrite Hv; intros []).
  rewrite Hb. rewrite bool_decide_true by done. by rewrite Hd.
Qed.

Lemma put_profile_same_username :
  validationErrors req = [] →
  UserRoutes.username (reqBody req) = Some (User.username (user req)) →
  run (UserRoutes.put_profile req) db = run (profile_write req) db.
Proof.
  intros Hv Hb.
  unfold UserRoutes.put_profile, profile_write, run, bind, respond, ret.
  rewrite bool_decide_false by (by rewrite Hv; intros []).
  rewrite Hb. by rewrite bool_decide_false by (intros [_ ?]; done).
Qed.

(** The write answers 200 or, when the index refuses it, 500. *)
Lemma profile_write_status :
  status (response (profile_write req) db) = 200%nat
  ∨ response (profile_write req) db = UnexpectedFailure.
Proof.
  unfold profile_write, response, run, bind, ret, raise, respond,
    UserRoutes.User_findByIdAndUpdate.
  destruct (users db !! User._id (user req)); [|by left].
  case_bool_decide; [by right|by left].
Qed.
End UpdateProfile.

(** ** Derived counters: likes *)

Section ToggleTwice.
Context (db : Db) (req : Req ()).

Local Abbreviation id := (params_id req).
Local Abbreviation uid := (User._id (user req)).
Local Abbreviation like := (ProjectRoutes.post_id_like req).

Lemma liked_project_consistent u p : project_likes_consistent (liked_project u p).
Proof. done. Qed.

Lemma liked_project_validate u p :
  Project_validate p → Project_validate (liked_project u p).
Proof. done. Qed.

Lemma liked_project_twice u p :
  u ∉ Project.likes p → project_likes_consistent p →
  liked_project u (liked_project u p) = p.
Proof.
  intros Hu Hp. unfold liked_project; simpl.
  rewrite toggle_likes_twice by done. rewrite <-Hp. by destruct p.
Qed.

Lemma toggles_project n p :
  projects db !! id = Some p →
  Project_validate p →
  ∃ pn, projects (toggles req n db) !! id = Some pn
        ∧ Project_validate pn
        ∧ (0 < n → project_likes_consistent pn)%nat.
Proof.
  intros Hp Hv. induction n as [|n (pn & Hn & Hvn & _)]; simpl.
  - exists p. split_and!; [done|done|lia].
  - exists (liked_project uid pn). split_and!; [|done|done].
    unfold after. rewrite (project_post_id_like_saved _ _ pn Hn Hvn); simpl.
    apply lookup_insert_eq.
Qed.

Lemma like_twice_restores p :
  projects db !! id = Some p →
  Project_validate p →
  uid ∉ Project.likes p → project_likes_consistent p →
  after like (after like db) = db.
Proof.
  intros Hp Hv Hu Hc. unfold after at 2.
  rewrite (project_post_id_like_saved _ _ p Hp Hv); simpl.
  unfold after.
  rewrite (project_post_id_like_saved _ _ (liked_project uid p)); simpl;
    [|apply lookup_insert_eq|done].
  rewrite liked_project_twice by done.
  rewrite insert_insert_eq, insert_id by done. by destruct db.
Qed.
End ToggleTwice.

(** C2, as stated, fails.  The author of project A can store, through
    [PUT /:id] (a query update: no validator, no hook), a document with
    an empty [title] and [likesCount] 5: the like toggle of such a
    project answers 500 and writes nothing, and the counter stays 5 with
    no liker.  The author can also store the liker array [U2, U2]: the
    toggle of U1 then leaves [likesCount] 3 for a liker set of size 2. *)
Lemma like_toggle_counterexample :
  status (response (ProjectRoutes.put_id Scenario.put_empty_title) Scenario.db0)
  = 200%nat
  ∧ run (ProjectRoutes.post_id_like Scenario.like_A) Scenario.db_invalid
    = (UnexpectedFailure, Scenario.db_invalid)
  ∧ (λ p, (Project.likesCount p, Project.likes p))
      <$> projects Scenario.db_invalid !! 10%N = Some (5, [])
  ∧ (λ p, (Project.likesCount p, Project.likes p,
           size (list_to_set (Project.likes p) : gset N)))
      <$> projects (after (ProjectRoutes.post_id_like Scenario.like_A) Scenario.db_twice)
          !! 10%N
    = Some (3, [2%N; 2%N; 1%N], 2%nat).
Proof. split_and!; vm_compute; reflexivity. Qed.

(** C2 (amended). After a like toggle, by any user, of a project that
    satisfies the validators of the schema, [likesCount] is the length
    of the liker array: the handler makes one write, of the document
    whose liker array was toggled and whose counter the save hook has
    set to the length of that array; the response carries that count; a
    liker array without repetition stays so, and then the length is the
    size of the liker set.  The same holds after any number of repeated
    toggles by the same user. *)
Theorem project_like_toggle_likesCount (db : Db) (req : Req ()) (p : Project.t) :
  projects db !! params_id req = Some p →
  Project_validate p →
  (∃ p',
      after (ProjectRoutes.post_id_like req) db
      = set_projects (<[params_id req := p']> (projects db)) db
      ∧ Project.likes p' = toggle_likes (User._id (user req)) (Project.likes p)
      ∧ Project.likesCount p' = Z.of_nat (length (Project.likes p'))
      ∧ response (ProjectRoutes.post_id_like req) db
        = Json 200 (LikeJson (negb (bool_decide (User._id (user req) ∈ Project.likes p)))
                             (Project.likesCount p'))
      ∧ (NoDup (Project.likes p) →
         NoDup (Project.likes p')
         ∧ Project.likesCount p'
           = Z.of_nat (size (list_to_set (Project.likes p') : gset N))))
  ∧ ∀ n, ∃ pn,
      projects (toggles req (S n) db) !! params_id req = Some pn
      ∧ Project.likesCount pn = Z.of_nat (length (Project.likes pn)).
Proof.
  intros Hp Hv. split.
  - exists (liked_project (User._id (user req)) p).
    unfold after, response. rewrite (project_post_id_like_saved _ _ p Hp Hv); simpl.
    split_and!; try done.
    intros Hnd. split; [by apply toggle_likes_NoDup|].
    f_equal. symmetry. apply size_list_to_set.
    by apply toggle_likes_NoDup.
  - intros n. destruct (toggles_project db req (S n) p Hp Hv) as (pn & Hn & _ & Hc).
    exists pn. split; [done|]. apply Hc. lia.
Qed.

Lemma project_like_toggle_likesCount_witness :
  projects Scenario.db0 !! params_id Scenario.like_A = Some Scenario.A
  ∧ Project_validate Scenario.A
  ∧ ∃ pn,
      projects (toggles Scenario.like_A 3 Scenario.db0) !! 10%N = Some pn
      ∧ Project.likesCount pn = Z.of_nat (length (Project.likes pn)).
Proof.
  assert (Project_validate Scenario.A) as Hv.
  { apply (bool_decide_unpack (Project_validate Scenario.A)). vm_compute. exact I. }
  split; [reflexivity|]. split; [exact Hv|].
  exact (proj2 (project_like_toggle_likesCount
                  Scenario.db0 Scenario.like_A Scenario.A eq_refl Hv) 2%nat).
Defined.

(** C7, as stated, fails: on a stored project that violates the
    validators of the schema the first toggle answers 500; a user who
    already likes the project gets [liked = false] from the first of two
    toggles; and on a project whose stored counter is not the length of
    its liker array (the author can write the counter through
    [PUT /:id]) the count after two toggles is not the count before
    them. *)
Lemma like_twice_counterexample :
  response (ProjectRoutes.post_id_like Scenario.like_A) Scenario.db_invalid
  = UnexpectedFailure
  ∧ response (ProjectRoutes.post_id_like Scenario.like_A) Scenario.db_liked
    = Json 200 (LikeJson false 0)
  ∧ Project.likesCount <$> projects Scenario.db_stale !! 10%N = Some 5
  ∧ Project.likesCount
      <$> projects (toggles Scenario.like_A 2 Scenario.db_stale) !! 10%N = Some 0.
Proof. split_and!; vm_compute; reflexivity. Qed.

(** C7 (amended). For a project that satisfies the validators of the
    schema, whose [likesCount] is the length of its liker array, and a
    user who is not in that array, two successive like toggles by the
    user return the state to the original: the first answers
    [{liked: true, likesCount: n + 1}], the second
    [{liked: false, likesCount: n}] where [n] is the count before the
    first toggle, and the database is the one before the first toggle. *)
Theorem like_twice_round_trip (db : Db) (req : Req ()) (p : Project.t) :
  projects db !! params_id req = Some p →
  Project_validate p →
  User._id (user req) ∉ Project.likes p →
  project_likes_consistent p →
  let db1 := after (ProjectRoutes.post_id_like req) db in
  response (ProjectRoutes.post_id_like req) db
  = Json 200 (LikeJson true (Project.likesCount p + 1))
  ∧ response (ProjectRoutes.post_id_like req) db1
    = Json 200 (LikeJson false (Project.likesCount p))
  ∧ after (ProjectRoutes.post_id_like req) db1 = db.
Proof.
  intros Hp Hv Hu Hc db1. split_and!.
  - unfold response. rewrite (project_post_id_like_saved _ _ p Hp Hv); simpl.
    rewrite bool_decide_false by done; simpl.
    unfold toggle_likes. rewrite bool_decide_false by done.
    rewrite length_app, Hc; simpl. do 2 f_equal. lia.
  - unfold response, db1, after at 1.
    rewrite (project_post_id_like_saved _ _ p Hp Hv); simpl.
    rewrite (project_post_id_like_saved _ _ (liked_project (User._id (user req)) p));
      simpl; [|apply lookup_insert_eq|done].
    rewrite toggle_likes_twice by done.
    rewrite bool_decide_true; [by rewrite Hc|].
    unfold toggle_likes. rewrite bool_decide_false by done. set_solver.
  - by apply (like_twice_restores db req p).
Qed.

Lemma like_twice_round_trip_witness :
  projects Scenario.db0 !! params_id Scenario.like_A = Some Scenario.A
  ∧ Project_validate Scenario.A
  ∧ response (ProjectRoutes.post_id_like Scenario.like_A) Scenario.db0
    = Json 200 (LikeJson true 1)
  ∧ response (ProjectRoutes.post_id_like Scenario.like_A) Scenario.db_liked
    = Json 200 (LikeJson false 0)
  ∧ after (ProjectRoutes.post_id_like Scenario.like_A) Scenario.db_liked
    = Scenario.db0.
Proof.
  assert (Project_validate Scenario.A) as Hv.
  { apply (bool_decide_unpack (Project_validate Scenario.A)). vm_compute. exact I. }
  split; [reflexivity|]. split; [exact Hv|].
  apply (like_twice_round_trip Scenario.db0 Scenario.like_A Scenario.A).
  - reflexivity.
  - exact Hv.
  - vm_compute. inversion 1.
  - reflexivity.
Defined.

(** ** The reply tree and the comment counter *)

Section ReplyTree.
Context (db : Db).

Lemma elem_of_children c x :
  x ∈ dom (children db c)
  ↔ ∃ rd, comments db !! x = Some rd ∧ Comment.parentComment rd = Some c.
Proof.
  unfold children. rewrite elem_of_dom. unfold is_Some.
  setoid_rewrite map_lookup_filter_Some. done.
Qed.

Lemma replies_match_iff c cd :
  replies_match db c cd
  ↔ ∀ x, x ∈ Comment.replies cd
         ↔ ∃ rd, comments db !! x = Some rd ∧ Comment.parentComment rd = Some c.
Proof.
  unfold replies_match, replySet. rewrite set_eq.
  by setoid_rewrite elem_of_children; setoid_rewrite elem_of_list_to_set.
Qed.

Lemma children_complement id :
  (size (children db id)
   + size (filter (λ kc, ¬ matches (ByParentComment id) kc.2) (comments db))
   = size (comments db))%nat.
Proof.
  unfold children.
  rewrite <-map_size_disj_union by apply map_disjoint_filter_complement.
  by rewrite map_filter_union_complement.
Qed.
End ReplyTree.

Section AfterCreate.
Context (db : Db) (req : Req CommentRoutes.PostBody) (oid : ObjectId).
Hypothesis created :
  status (response (CommentRoutes.post_root req oid) db) = 201%nat.

Local Abbreviation projectId := (CommentRoutes.projectId (reqBody req)).
Local Abbreviation parentCommentId := (CommentRoutes.parentCommentId (reqBody req)).

Lemma after_create :
  after (CommentRoutes.post_root req oid) db
  = mkDb (users db)
         (alter (inc_commentsCount 1) projectId (projects db))
         (comments_after_create db req oid).
Proof.
  destruct (post_root_201 _ _ _ created) as (Hv & Hp & Hpa & Hc).
  unfold after. by rewrite post_root_created.
Qed.

Lemma lookup_after_create k :
  comments_after_create db req oid !! k
  = if decide (k = oid) then Some (Comment.fields (new_comment req oid))
    else if decide (parentCommentId = Some k)
         then push_reply oid <$> comments db !! k
         else comments db !! k.
Proof.
  destruct (post_root_201 _ _ _ created) as (Hv & Hp & Hpa & Hc).
  unfold comments_after_create.
  destruct parentCommentId as [pid|] eqn:Hpid.
  - destruct (Hpa pid eq_refl) as [pd Hpd].
    assert (pid ≠ oid) by (intros ->; congruence).
    rewrite lookup_alter. repeat case_decide; simplify_eq;
      by rewrite ?lookup_insert_eq, ?lookup_insert_ne.
  - rewrite lookup_insert. repeat case_decide; simplify_eq; done.
Qed.
End AfterCreate.

Section AfterDelete.
Context (db : Db) (req : Req ()) (c : Comment.t).
Hypothesis stored : comments db !! params_id req = Some c.

Local Abbreviation id := (params_id req).

Lemma lookup_after_delete k :
  comments_after_delete db id c !! k
  = if decide (k = id) then None
    else comments db !! k ≫= λ x,
         if decide (Comment.parentComment x = Some id) then None
         else Some (if decide (Comment.parentComment c = Some k)
                    then pull_reply id x else x).
Proof.
  unfold comments_after_delete.
  rewrite lookup_delete. case_decide as Hk; [by rewrite decide_True|].
  rewrite decide_False by done.
  assert (filter (λ kc, ¬ matches (ByParentComment id) kc.2) (comments db) !! k
          = comments db !! k ≫= λ x,
              if decide (Comment.parentComment x = Some id) then None else Some x)
    as Hrest.
  { destruct (comments db !! k) as [x|] eqn:Hx; simpl.
    - case_decide as Hp.
      + apply map_lookup_filter_None. right. intros y Hy; simplify_eq/=. tauto.
      + by apply map_lookup_filter_Some.
    - apply map_lookup_filter_None. by left. }
  destruct (Comment.parentComment c) as [parent|] eqn:Hpa.
  - rewrite lookup_alter. destruct (decide (parent = k)) as [->|Hne].
    + rewrite Hrest. destruct (comments db !! k) as [x|]; simpl; [|done].
      case_decide; [done|]. simpl. by rewrite decide_True.
    + rewrite Hrest. destruct (comments db !! k) as [x|]; simpl; [|done].
      case_decide; [done|]. by rewrite decide_False by congruence.
  - rewrite Hrest.
    destruct (comments db !! k) as [x|]; simpl; [|done].
    repeat case_decide; simplify_eq/=; done.
Qed.

(** The delete removes the comment and every comment whose parent it
    is: [N + 1] documents when it has [N] replies. *)
Lemma size_after_delete :
  Comment.parentComment c ≠ Some id →
  (size (comments_after_delete db id c) + (size (children db id) + 1)
   = size (comments db))%nat.
Proof.
  intros Hself. rewrite <-(children_complement db id).
  unfold comments_after_delete.
  set (rest := filter (λ kc, ¬ matches (ByParentComment id) kc.2) (comments db)).
  assert (rest !! id = Some c) as Hrest by (by apply map_lookup_filter_Some).
  assert (∀ m : gmap N Comment.t, is_Some (m !! id) →
            (size (delete id m) + 1 = size m)%nat) as Hdel.
  { intros m [x Hx]. rewrite map_size_delete_Some by (by eexists).
    assert (size m ≠ 0)%nat; [|lia].
    apply map_size_non_empty_iff. intros ->. by rewrite lookup_empty in Hx. }
  destruct (Comment.parentComment c) as [parent|].
  - assert (size (alter (pull_reply id) parent rest) = size rest) as Hsz.
    { rewrite <-!size_dom. f_equal. apply dom_alter_L. }
    specialize (Hdel (alter (pull_reply id) parent rest)).
    rewrite Hsz in Hdel. rewrite <-Hdel; [lia|].
    rewrite lookup_alter. case_decide; subst; rewrite Hrest; by eexists.
  - specialize (Hdel rest). rewrite <-Hdel; [lia|by eexists].
Qed.
End AfterDelete.

(** Integers of magnitude up to [2^53] are doubles. *)
Lemma to_double_exact (z : Z) : (Z.abs z ≤ 2 ^ 53)%Z → to_double z = z.
Proof. intros Hz. unfold to_double. by rewrite bool_decide_true. Qed.

Lemma inc_commentsCount_safe (n : Z) (p : Project.t) :
  safe_counter p → (Z.abs n ≤ 1)%Z →
  inc_commentsCount n p
  = Project.set_commentsCount (Project.commentsCount p + n) p.
Proof.
  unfold safe_counter, inc_commentsCount. intros Hp Hn.
  rewrite to_double_exact; [done|lia].
Qed.

(** The delete of a comment with [N] replies removes [N + 1] comments,
    but the count that feeds the decrement is taken after the replies
    are gone: [commentsCount] goes down by one, whatever [N]. *)
Lemma delete_id_removes_and_decrements (db : Db) (req : Req ()) c p :
  comments db !! params_id req = Some c →
  Comment.author c = User._id (user req) →
  Comment.parentComment c ≠ Some (params_id req) →
  projects db !! Comment.project c = Some p →
  safe_counter p →
  let db' := after (CommentRoutes.delete_id req) db in
  (size (comments db') + (size (children db (params_id req)) + 1)
   = size (comments db))%nat
  ∧ Project.commentsCount <$> projects db' !! Comment.project c
    = Some (Project.commentsCount p - 1).
Proof.
  intros Hc Ha Hself Hp Hsafe db'. subst db'. unfold after.
  rewrite (delete_id_deleted _ _ c) by done. simpl. split.
  - by apply size_after_delete.
  - rewrite lookup_alter_eq, Hp. unfold fmap, option_fmap, option_map.
    rewrite inc_commentsCount_safe by (done || lia). done.
Qed.

(** C1, on the scenario of the specification: project A holds the
    comment 20 and its reply 21, [commentsCount] is 2; the delete of 20
    answers 200 and removes both comments, and [commentsCount] is 1. *)
Theorem delete_comment_with_reply_decrements_by_one :
  size (children Scenario.db2 20%N) = 1%nat
  ∧ size (comments Scenario.db2) = 2%nat
  ∧ Project.commentsCount <$> projects Scenario.db2 !! 10%N = Some 2
  ∧ response (CommentRoutes.delete_id Scenario.delete_C1) Scenario.db2
    = Json 200 (Message "Comment deleted successfully")
  ∧ size (comments Scenario.db3) = 0%nat
  ∧ Project.commentsCount <$> projects Scenario.db3 !! 10%N = Some 1.
Proof. split_and!; vm_compute; reflexivity. Qed.

(** C5, as stated, fails.  The counter is a JavaScript number, and the
    author of project A can store [2^53] in it through [PUT /:id]; the
    create of a comment on A then answers 201 and stores the comment,
    and [commentsCount] is [2^53] as before: the sum [2^53 + 1] is no
    double, and the [$inc] gives the nearest one. *)
Lemma create_comment_counterexample :
  status (response (ProjectRoutes.put_id Scenario.put_big_count) Scenario.db0)
  = 200%nat
  ∧ Project.commentsCount <$> projects Scenario.db_big !! 10%N = Some (2 ^ 53)%Z
  ∧ status (response (CommentRoutes.post_root Scenario.comment_C1 20%N) Scenario.db_big)
    = 201%nat
  ∧ is_Some (comments (after (CommentRoutes.post_root Scenario.comment_C1 20%N)
                             Scenario.db_big) !! 20%N)
  ∧ Project.commentsCount
      <$> projects (after (CommentRoutes.post_root Scenario.comment_C1 20%N)
                          Scenario.db_big) !! 10%N
    = Some (2 ^ 53)%Z.
Proof.
  split_and!; try (vm_compute; reflexivity).
  vm_compute. by eexists.
Qed.

(** C5 (amended). Every successful create of a comment, top-level or
    reply, on a project whose [commentsCount] is an integer of magnitude
    below [2^53], increments the [commentsCount] of that project by
    exactly one and leaves the other projects alone. *)
Theorem create_comment_increments_commentsCount
    (db : Db) (req : Req CommentRoutes.PostBody) (oid : ObjectId) :
  status (response (CommentRoutes.post_root req oid) db) = 201%nat →
  (∀ p, projects db !! CommentRoutes.projectId (reqBody req) = Some p →
        safe_counter p) →
  let db' := after (CommentRoutes.post_root req oid) db in
  let projectId := CommentRoutes.projectId (reqBody req) in
  (∃ p p',
      projects db !! projectId = Some p
      ∧ projects db' !! projectId = Some p'
      ∧ Project.commentsCount p' = Project.commentsCount p + 1
      ∧ p' = Project.set_commentsCount (Project.commentsCount p') p)
  ∧ ∀ k, k ≠ projectId → projects db' !! k = projects db !! k.
Proof.
  intros Hs Hsafe db' projectId. subst db' projectId.
  rewrite after_create by done. simpl.
  destruct (post_root_201 _ _ _ Hs) as (_ & [p Hp] & _). split.
  - exists p, (inc_commentsCount 1 p). rewrite lookup_alter_eq, Hp.
    unfold fmap, option_fmap, option_map.
    rewrite inc_commentsCount_safe by (by apply Hsafe || lia).
    done.
  - intros k Hk. by rewrite lookup_alter_ne.
Qed.

Lemma create_comment_increments_commentsCount_witness :
  status (response (CommentRoutes.post_root Scenario.reply_R1 21%N) Scenario.db1)
  = 201%nat
  ∧ (∀ p, projects Scenario.db1 !! 10%N = Some p → safe_counter p)
  ∧ ∃ p p',
      projects Scenario.db1 !! 10%N = Some p
      ∧ projects Scenario.db2 !! 10%N = Some p'
      ∧ Project.commentsCount p' = Project.commentsCount p + 1
      ∧ p' = Project.set_commentsCount (Project.commentsCount p') p.
Proof.
  assert (∀ p, projects Scenario.db1 !! 10%N = Some p → safe_counter p) as Hsafe.
  { intros p Hp. vm_compute in Hp. injection Hp as <-.
    unfold safe_counter. simpl. lia. }
  split; [reflexivity|]. split; [exact Hsafe|].
  exact (proj1 (create_comment_increments_commentsCount
                  Scenario.db1 Scenario.reply_R1 21%N eq_refl Hsafe)).
Defined.

(** C6. A create whose parent reference denotes no stored comment
    changes nothing: no comment is created, no counter and no reply set
    moves; once the request has passed validation the answer is NotFound
    (404), for the parent or, if the project is missing too, for the
    project. *)
Theorem create_reply_to_missing_parent
    (db : Db) (req : Req CommentRoutes.PostBody) (oid pid : ObjectId) :
  CommentRoutes.parentCommentId (reqBody req) = Some pid →
  comments db !! pid = None →
  after (CommentRoutes.post_root req oid) db = db
  ∧ (validationErrors req = [] →
     response (CommentRoutes.post_root req oid) db
     = NotFound (match projects db !! CommentRoutes.projectId (reqBody req) with
                 | Some _ => "Parent comment not found"
                 | None => "Project not found"
                 end)).
Proof.
  intros Hpid Hnone. unfold after, response.
  destruct (decide (validationErrors req = [])) as [Hv|Hv].
  - destruct (projects db !! CommentRoutes.projectId (reqBody req)) as [p|] eqn:Hp.
    + by rewrite (post_root_no_parent _ _ _ pid).
    + by rewrite post_root_no_project.
  - by rewrite post_root_invalid.
Qed.

Lemma create_reply_to_missing_parent_witness :
  comments Scenario.db1 !! 99%N = None
  ∧ after (CommentRoutes.post_root Scenario.reply_nowhere 21%N) Scenario.db1
    = Scenario.db1
  ∧ response (CommentRoutes.post_root Scenario.reply_nowhere 21%N) Scenario.db1
    = NotFound "Parent comment not found".
Proof.
  split; [reflexivity|].
  destruct (create_reply_to_missing_parent
              Scenario.db1 Scenario.reply_nowhere 21%N 99%N eq_refl eq_refl)
    as [Hdb Hres].
  split; [exact Hdb|exact (Hres eq_refl)].
Defined.

(** C3, as stated, fails: the create checks that the parent is stored,
    not that it is top-level.  In the scenario the tree has two levels
    (comment 20, reply 21); the reply of U1 to the reply 21 is accepted
    with 201 and stored as comment 22, whose parent 21 has itself the
    parent 20. *)
Lemma reply_to_reply_counterexample :
  two_levels Scenario.db2
  ∧ status Scenario.reply_to_reply.1 = 201%nat
  ∧ Comment.parentComment <$> comments Scenario.reply_to_reply.2 !! 22%N
    = Some (Some 21%N)
  ∧ Comment.parentComment <$> comments Scenario.reply_to_reply.2 !! 21%N
    = Some (Some 20%N)
  ∧ ¬ two_levels Scenario.reply_to_reply.2.
Proof.
  split_and!; try (vm_compute; reflexivity).
  - apply (bool_decide_unpack (two_levels Scenario.db2)). vm_compute. exact I.
  - intros H.
    apply (bool_decide_pack (two_levels Scenario.reply_to_reply.2)) in H.
    vm_compute in H. exact H.
Qed.

(** C3 (amended). Every comment created through the create operation is
    stored with the parent reference of the request, and a parent
    reference it carries denotes a comment that was stored when the
    create ran (and still is); that parent need not be top-level.  The
    created comment has no replies, and without a parent reference it is
    top-level. *)
Theorem created_comment_parent_exists
    (db : Db) (req : Req CommentRoutes.PostBody) (oid : ObjectId) :
  status (response (CommentRoutes.post_root req oid) db) = 201%nat →
  let db' := after (CommentRoutes.post_root req oid) db in
  ∃ c,
    comments db' !! oid = Some c
    ∧ Comment.parentComment c = CommentRoutes.parentCommentId (reqBody req)
    ∧ Comment.project c = CommentRoutes.projectId (reqBody req)
    ∧ Comment.replies c = []
    ∧ ∀ pid, Comment.parentComment c = Some pid →
             is_Some (comments db !! pid) ∧ is_Some (comments db' !! pid).
Proof.
  intros Hs db'. subst db'. rewrite after_create by done. simpl.
  destruct (post_root_201 _ _ _ Hs) as (_ & _ & Hpa & Hfree).
  exists (Comment.fields (new_comment req oid)).
  rewrite lookup_after_create, decide_True by done.
  split_and!; try done.
  intros pid Hpid. simpl in Hpid. destruct (Hpa pid Hpid) as [pd Hpd].
  split; [by eexists|].
  rewrite lookup_after_create by done.
  rewrite decide_False by (intros ->; congruence).
  rewrite decide_True by done. rewrite Hpd. by eexists.
Qed.

Lemma created_comment_parent_exists_witness :
  status (response (CommentRoutes.post_root Scenario.reply_R1 21%N) Scenario.db1)
  = 201%nat
  ∧ ∃ c,
      comments Scenario.db2 !! 21%N = Some c
      ∧ Comment.parentComment c = Some 20%N
      ∧ Comment.project c = 10%N
      ∧ Comment.replies c = []
      ∧ ∀ pid, Comment.parentComment c = Some pid →
               is_Some (comments Scenario.db1 !! pid)
               ∧ is_Some (comments Scenario.db2 !! pid).
Proof.
  split; [reflexivity|].
  exact (created_comment_parent_exists Scenario.db1 Scenario.reply_R1 21%N eq_refl).
Defined.

Section ReplySet.
Context (db : Db) (c : ObjectId) (cd : Comment.t).
Hypothesis stored : comments db !! c = Some cd.
Hypothesis matched : replies_match db c cd.

Lemma create_reply_replies_match (req : Req CommentRoutes.PostBody) oid :
  CommentRoutes.parentCommentId (reqBody req) = Some c →
  status (response (CommentRoutes.post_root req oid) db) = 201%nat →
  let db' := after (CommentRoutes.post_root req oid) db in
  ∃ cd', comments db' !! c = Some cd'
         ∧ Comment.replies cd' = (Comment.replies cd ++ [oid])%list
         ∧ replies_match db' c cd'.
Proof.
  intros Hpa Hs db'. subst db'. rewrite after_create by done.
  destruct (post_root_201 _ _ _ Hs) as (_ & _ & _ & Hfree).
  assert (c ≠ oid) as Hne by (intros ->; congruence).
  exists (push_reply oid cd). split_and!.
  - simpl. rewrite lookup_after_create by done.
    rewrite decide_False, decide_True, stored by done. done.
  - done.
  - apply replies_match_iff. intros x. simpl.
    rewrite elem_of_app, list_elem_of_singleton.
    rewrite (proj1 (replies_match_iff db c cd) matched x).
    rewrite lookup_after_create by done.
    destruct (decide (x = oid)) as [->|Hx].
    + split; [|by right]. intros _. eexists; split; [done|]. by rewrite <-Hpa.
    + case_decide as Hxc.
      * assert (x = c) as -> by congruence. rewrite stored. simpl.
        split; [intros [(rd & ? & ?)|?]|intros (rd & ? & ?)];
          simplify_eq/=; eauto.
      * split; [intros [?|?]|]; eauto; done.
Qed.

Lemma delete_reply_replies_match (req : Req ()) rd :
  Comment.parentComment cd = None →
  comments db !! params_id req = Some rd →
  Comment.parentComment rd = Some c →
  Comment.author rd = User._id (user req) →
  let db' := after (CommentRoutes.delete_id req) db in
  ∃ cd', comments db' !! c = Some cd'
         ∧ Comment.replies cd' = filter (λ x, x ≠ params_id req) (Comment.replies cd)
         ∧ replies_match db' c cd'
         ∧ comments db' !! params_id req = None.
Proof.
  intros Htop Hrd Hpa Ha db'. subst db'. unfold after.
  rewrite (delete_id_deleted _ _ rd) by done. simpl.
  assert (c ≠ params_id req) as Hne by (intros ->; congruence).
  exists (pull_reply (params_id req) cd). split_and!.
  - rewrite (lookup_after_delete db req rd).
    rewrite decide_False, stored by done. simpl.
    rewrite decide_False by congruence. by rewrite decide_True.
  - done.
  - apply replies_match_iff. intros x. simpl.
    rewrite list_elem_of_filter.
    rewrite (proj1 (replies_match_iff db c cd) matched x).
    rewrite (lookup_after_delete db req rd).
    destruct (decide (x = params_id req)) as [->|Hx].
    + split; [intros [? _]; done|intros (? & ? & _); done].
    + destruct (comments db !! x) as [y|]; simpl.
      * case_decide as Hy.
        -- split; [intros [_ (? & ? & ?)]|intros (? & ? & _)];
             simplify_eq/=; congruence.
        -- split.
           ++ intros [_ (y' & ? & Hy')]. simplify_eq/=.
              eexists; split; [done|]. by case_decide.
           ++ intros (y' & ? & Hy'). simplify_eq/=. split; [done|].
              eexists; split; [done|]. by case_decide.
      * split; [intros [_ (? & ? & _)]|intros (? & ? & _)]; done.
  - rewrite (lookup_after_delete db req rd). by rewrite decide_True.
Qed.
End ReplySet.

(** C4, as stated, fails: the routes reach a state where the reply set
    of a comment is not the set of its children, and a create or delete
    of a reply does not repair it.  U1 replies to comment 20 of project
    A under project B (comment 22, accepted with 201: the create never
    compares the two projects); U2 deletes B, which removes comment 22
    but not its identifier in the reply array of comment 20.  Then the
    reply 23 of U3 to comment 20 is accepted, and the reply array of 20
    is [21, 22, 23] for the children 21 and 23; had U3 deleted the reply
    21 instead, the array would be [22] for no child. *)
Lemma reply_set_counterexample :
  status (response (ProjectCreate.post_root Scenario.create_B 11%N) Scenario.db2)
  = 201%nat
  ∧ status (response (CommentRoutes.post_root Scenario.reply_across 22%N)
                     Scenario.db_B) = 201%nat
  ∧ status (response (ProjectRoutes.delete_id Scenario.delete_B) Scenario.db_across)
    = 200%nat
  ∧ (let db' := after (CommentRoutes.post_root Scenario.reply_again 23%N)
                      Scenario.db_dangling in
     status (response (CommentRoutes.post_root Scenario.reply_again 23%N)
                      Scenario.db_dangling) = 201%nat
     ∧ Comment.replies <$> comments db' !! 20%N = Some [21%N; 22%N; 23%N]
     ∧ dom (children db' 20%N) = {[ 21%N; 23%N ]}
     ∧ ∀ cd, comments db' !! 20%N = Some cd → ¬ replies_match db' 20%N cd)
  ∧ (let db' := after (CommentRoutes.delete_id Scenario.delete_R1)
                      Scenario.db_dangling in
     status (response (CommentRoutes.delete_id Scenario.delete_R1)
                      Scenario.db_dangling) = 200%nat
     ∧ Comment.replies <$> comments db' !! 20%N = Some [22%N]
     ∧ dom (children db' 20%N) = ∅
     ∧ ∀ cd, comments db' !! 20%N = Some cd → ¬ replies_match db' 20%N cd).
Proof.
  cbv zeta. split_and!; try (vm_compute; reflexivity);
    try (apply (bool_decide_unpack _); vm_compute; exact I).
  all: intros cd Hcd; vm_compute in Hcd; injection Hcd as <-; intros H.
  all: apply (bool_decide_pack _) in H; vm_compute in H; exact H.
Qed.

(** C4 (amended). Let C be a stored comment whose reply set is exactly the set of
    comments whose parent reference is C.  A successful create of a reply
    to C appends the identifier of the reply to the reply array of C, a
    delete of a reply to a top-level C by its author removes the
    identifier from the reply array of C, and after either the reply set
    of C is again exactly the set of comments whose parent reference is C. *)
Theorem reply_set_matches_children :
  (∀ db c cd (req : Req CommentRoutes.PostBody) oid,
     comments db !! c = Some cd →
     replies_match db c cd →
     CommentRoutes.parentCommentId (reqBody req) = Some c →
     status (response (CommentRoutes.post_root req oid) db) = 201%nat →
     let db' := after (CommentRoutes.post_root req oid) db in
     ∃ cd', comments db' !! c = Some cd'
            ∧ Comment.replies cd' = (Comment.replies cd ++ [oid])%list
            ∧ replies_match db' c cd')
  ∧ (∀ db c cd (req : Req ()) rd,
       comments db !! c = Some cd →
       replies_match db c cd →
       Comment.parentComment cd = None →
       comments db !! params_id req = Some rd →
       Comment.parentComment rd = Some c →
       Comment.author rd = User._id (user req) →
       let db' := after (CommentRoutes.delete_id req) db in
       ∃ cd', comments db' !! c = Some cd'
              ∧ Comment.replies cd'
                = filter (λ x, x ≠ params_id req) (Comment.replies cd)
              ∧ replies_match db' c cd'
              ∧ comments db' !! params_id req = None).
Proof.
  split.
  - intros db c cd req oid ????. by apply create_reply_replies_match.
  - intros db c cd req rd ??????. by apply (delete_reply_replies_match db c cd) with rd.
Qed.

Lemma reply_set_matches_children_witness :
  (replies_match Scenario.db1 20%N Scenario.C1
   ∧ ∃ cd', comments Scenario.db2 !! 20%N = Some cd'
            ∧ Comment.replies cd' = [21%N]
            ∧ replies_match Scenario.db2 20%N cd')
  ∧ (replies_match Scenario.db2 20%N Scenario.C1'
     ∧ ∃ cd', comments
                (after (CommentRoutes.delete_id Scenario.delete_R1) Scenario.db2)
                !! 20%N = Some cd'
              ∧ Comment.replies cd' = []
              ∧ replies_match
                  (after (CommentRoutes.delete_id Scenario.delete_R1) Scenario.db2)
                  20%N cd'
              ∧ comments
                  (after (CommentRoutes.delete_id Scenario.delete_R1) Scenario.db2)
                  !! 21%N = None).
Proof.
  assert (replies_match Scenario.db1 20%N Scenario.C1) as H1
    by (vm_compute; reflexivity).
  assert (replies_match Scenario.db2 20%N Scenario.C1') as H2
    by (vm_compute; reflexivity).
  destruct reply_set_matches_children as [Hcreate Hdelete].
  split; (split; [assumption|]).
  - exact (Hcreate Scenario.db1 20%N Scenario.C1 Scenario.reply_R1 21%N
             eq_refl H1 eq_refl eq_refl).
  - exact (Hdelete Scenario.db2 20%N Scenario.C1' Scenario.delete_R1 Scenario.R1
             eq_refl H2 eq_refl eq_refl eq_refl eq_refl).
Defined.

(** ** Errors that leave the state alone *)

(** C8. A profile update that asks for a username borne by a stored
    account, other than the caller's current username, writes nothing,
    and once the request has passed validation it is answered with
    Conflict ("Username already taken").  When the submitted username is
    the caller's current one the uniqueness check is skipped: the handler
    is the write alone, whatever accounts are stored, and its answer is
    not Conflict. *)
Theorem username_taken_conflict :
  (∀ db (req : Req UserRoutes.ProfileBody) n k u,
     UserRoutes.username (reqBody req) = Some n →
     n ≠ "" →
     n ≠ User.username (user req) →
     users db !! k = Some u →
     User.username u = n →
     after (UserRoutes.put_profile req) db = db
     ∧ (validationErrors req = [] →
        response (UserRoutes.put_profile req) db = Conflict))
  ∧ (∀ db (req : Req UserRoutes.ProfileBody),
       validationErrors req = [] →
       UserRoutes.username (reqBody req) = Some (User.username (user req)) →
       run (UserRoutes.put_profile req) db = run (profile_write req) db
       ∧ response (UserRoutes.put_profile req) db ≠ Conflict).
Proof.
  split.
  - intros db req n k u Hb Hn Hne Hk Hu. unfold after, response.
    destruct (decide (validationErrors req = [])) as [Hv|Hv].
    + by rewrite (put_profile_conflict db req n k u).
    + by rewrite put_profile_invalid.
  - intros db req Hv Hb. split; [by apply put_profile_same_username|].
    unfold response. rewrite put_profile_same_username by done.
    destruct (profile_write_status db req) as [H|H]; unfold response in H;
      intros Hc; rewrite Hc in H; discriminate.
Qed.

Lemma username_taken_conflict_witness :
  (users Scenario.db0 !! 1%N = Some (User.fields Scenario.U1)
   ∧ after (UserRoutes.put_profile Scenario.take_ana) Scenario.db0 = Scenario.db0
   ∧ response (UserRoutes.put_profile Scenario.take_ana) Scenario.db0 = Conflict)
  ∧ (run (UserRoutes.put_profile Scenario.keep_ben) Scenario.db0
     = run (profile_write Scenario.keep_ben) Scenario.db0
     ∧ response (UserRoutes.put_profile Scenario.keep_ben) Scenario.db0 ≠ Conflict).
Proof.
  destruct username_taken_conflict as [Htaken Hsame].
  split.
  - split; [reflexivity|].
    destruct (Htaken Scenario.db0 Scenario.take_ana "ana" 1%N
                (User.fields Scenario.U1) eq_refl)
      as [Hdb Hres]; try reflexivity; try (intros [=]).
    split; [exact Hdb|exact (Hres eq_refl)].
  - exact (Hsame Scenario.db0 Scenario.keep_ben eq_refl eq_refl).
Defined.

(** C9. An update or a delete of a stored project or comment by a caller
    who is not its author changes nothing and is answered with
    Unauthorized (403, "Not authorized"), which is not a NotFound (404);
    for the update of a comment, whose validators run first, the answer
    is Unauthorized once the request has passed validation. *)
Theorem not_author_unauthorized :
  (∀ db (req : Req ProjectRoutes.UpdateData) p,
     projects db !! params_id req = Some p →
     Project.author p ≠ User._id (user req) →
     run (ProjectRoutes.put_id req) db = (Unauthorized, db))
  ∧ (∀ db (req : Req ()) p,
       projects db !! params_id req = Some p →
       Project.author p ≠ User._id (user req) →
       run (ProjectRoutes.delete_id req) db = (Unauthorized, db))
  ∧ (∀ db (req : Req string) c,
       comments db !! params_id req = Some c →
       Comment.author c ≠ User._id (user req) →
       after (CommentRoutes.put_id req) db = db
       ∧ (validationErrors req = [] →
          response (CommentRoutes.put_id req) db = Unauthorized))
  ∧ (∀ db (req : Req ()) c,
       comments db !! params_id req = Some c →
       Comment.author c ≠ User._id (user req) →
       run (CommentRoutes.delete_id req) db = (Unauthorized, db))
  ∧ status Unauthorized = 403%nat
  ∧ ∀ m, status (NotFound m) = 404%nat.
Proof.
  split_and!; try done.
  - intros db req p. apply project_put_id_not_author.
  - intros db req p. apply project_delete_id_not_author.
  - intros db req c Hc Ha. unfold after, response.
    destruct (decide (validationErrors req = [])) as [Hv|Hv].
    + by rewrite (comment_put_id_not_author db req c).
    + by rewrite comment_put_id_invalid.
  - intros db req c. apply delete_id_not_author.
Qed.

Lemma not_author_unauthorized_witness :
  run (ProjectRoutes.put_id Scenario.U3_edits_A) Scenario.db2
  = (Unauthorized, Scenario.db2)
  ∧ run (ProjectRoutes.delete_id Scenario.U3_deletes_A) Scenario.db2
    = (Unauthorized, Scenario.db2)
  ∧ run (CommentRoutes.put_id Scenario.U3_edits_C1) Scenario.db2
    = (Unauthorized, Scenario.db2)
  ∧ run (CommentRoutes.delete_id Scenario.U3_deletes_C1) Scenario.db2
    = (Unauthorized, Scenario.db2).
Proof.
  destruct not_author_unauthorized as (Hpp & Hpd & Hcp & Hcd & _).
  split_and!.
  - apply (Hpp Scenario.db2 Scenario.U3_edits_A
             (Project.set_commentsCount 2 Scenario.A)); [reflexivity|].
    vm_compute. intros [=].
  - apply (Hpd Scenario.db2 Scenario.U3_deletes_A
             (Project.set_commentsCount 2 Scenario.A)); [reflexivity|].
    vm_compute. intros [=].
  - destruct (Hcp Scenario.db2 Scenario.U3_edits_C1 Scenario.C1') as [Hdb Hres];
      [reflexivity|vm_compute; intros [=]|].
    specialize (Hres eq_refl). unfold after, response in *.
    destruct (run (CommentRoutes.put_id Scenario.U3_edits_C1) Scenario.db2).
    simpl in *. by subst.
  - apply (Hcd Scenario.db2 Scenario.U3_deletes_C1 Scenario.C1'); [reflexivity|].
    vm_compute. intros [=].
Defined.

(** ** Frame of the comment update *)

(** C10. The update of a comment by its author, with a valid content,
    stores the comment with the new content and with the author, the
    project, the parent reference, the reply set and the liker set it
    had; no other comment, no project (hence no [commentsCount]) and no
    user changes.  The save recomputes [likesCount] from the unchanged
    liker set. *)
Theorem update_comment_changes_content_only (db : Db) (req : Req string) (c : Comment.t) :
  validationErrors req = [] →
  comments db !! params_id req = Some c →
  Comment.author c = User._id (user req) →
  let db' := after (CommentRoutes.put_id req) db in
  ∃ c',
    comments db' = <[params_id req := c']> (comments db)
    ∧ Comment.content c' = reqBody req
    ∧ Comment.author c' = Comment.author c
    ∧ Comment.project c' = Comment.project c
    ∧ Comment.parentComment c' = Comment.parentComment c
    ∧ Comment.replies c' = Comment.replies c
    ∧ Comment.likes c' = Comment.likes c
    ∧ (comment_likes_consistent c → Comment.likesCount c' = Comment.likesCount c)
    ∧ projects db' = projects db
    ∧ users db' = users db
    ∧ status (response (CommentRoutes.put_id req) db) = 200%nat.
Proof.
  intros Hv Hc Ha db'. subst db'. unfold after, response.
  rewrite (comment_put_id_saved db req c) by done. simpl.
  exists (edited_comment (reqBody req) c). split_and!; done.
Qed.

Lemma update_comment_changes_content_only_witness :
  comments Scenario.db2 !! 20%N = Some Scenario.C1'
  ∧ ∃ c',
      comments (after (CommentRoutes.put_id Scenario.U2_edits_C1) Scenario.db2)
      = <[20%N := c']> (comments Scenario.db2)
      ∧ Comment.content c' = "very nice"
      ∧ Comment.replies c' = [21%N]
      ∧ projects (after (CommentRoutes.put_id Scenario.U2_edits_C1) Scenario.db2)
        = projects Scenario.db2.
Proof.
  split; [reflexivity|].
  destruct (update_comment_changes_content_only
              Scenario.db2 Scenario.U2_edits_C1 Scenario.C1' eq_refl eq_refl eq_refl)
    as (c' & Hcs & Hcontent & _ & _ & _ & Hreplies & _ & _ & Hps & _).
  exists c'. split_and!; assumption.
Defined.

(** * Further properties of the routes *)

(** ** The cascade of the project delete *)

(** X1. The delete of a project by its author removes the project and
    exactly the comments attached to it, top-level and replies alike:
    none of them is left, every comment of another project is kept as it
    was, and the users are untouched. *)
Theorem project_delete_cascade (db : Db) (req : Req ()) (p : Project.t) :
  projects db !! params_id req = Some p →
  Project.author p = User._id (user req) →
  let db' := after (ProjectRoutes.delete_id req) db in
  response (ProjectRoutes.delete_id req) db
  = Json 200 (Message "Project deleted successfully")
  ∧ projects db' = delete (params_id req) (projects db)
  ∧ comments_of db' (params_id req) = ∅
  ∧ (∀ k c, comments db' !! k = Some c
            ↔ comments db !! k = Some c ∧ Comment.project c ≠ params_id req)
  ∧ (size (comments db') + size (comments_of db (params_id req))
     = size (comments db))%nat
  ∧ users db' = users db.
Proof.
  intros Hp Ha db'. subst db'. unfold after, response.
  rewrite (project_delete_id_deleted db req p) by done. simpl.
  split_and!; try done.
  - apply map_empty_filter. intros k c Hk Hm; simpl in *.
    apply map_lookup_filter_Some in Hk as [_ Hn]. by apply Hn.
  - intros k c. by rewrite map_lookup_filter_Some.
  - unfold comments_of. rewrite Nat.add_comm.
    rewrite <-map_size_disj_union by apply map_disjoint_filter_complement.
    by rewrite map_filter_union_complement.
Qed.

Lemma project_delete_cascade_witness :
  projects Scenario.db2 !! 10%N = Some (Project.set_commentsCount 2 Scenario.A)
  ∧ size (comments Scenario.db2) = 2%nat
  ∧ comments (after (ProjectRoutes.delete_id (Scenario.as_user Scenario.U1 10%N ()))
                    Scenario.db2) = ∅.
Proof.
  split; [reflexivity|]. split; [reflexivity|].
  destruct (project_delete_cascade Scenario.db2
              (Scenario.as_user Scenario.U1 10%N ())
              (Project.set_commentsCount 2 Scenario.A) eq_refl eq_refl)
    as (_ & _ & _ & Hiff & _).
  apply map_empty. intros k.
  destruct (comments _ !! k) as [c|] eqn:Hk; [|done].
  apply Hiff in Hk as [Hk Hne]. exfalso.
  assert (map_Forall (λ _ c, Comment.project c = 10%N) (comments Scenario.db2)) as Hall.
  { apply (bool_decide_unpack
             (map_Forall (λ _ c, Comment.project c = 10%N) (comments Scenario.db2))).
    vm_compute. exact I. }
  by apply Hall in Hk.
Defined.

(** ** The like toggles and the liker set *)

(** X2. A like toggle of a project that satisfies the validators of
    the schema flips the membership of the caller in the liker set and
    of nobody else; [liked] in the response tells whether the caller is
    in the set afterwards; the other fields of the project, the other
    projects, the comments and the users are unchanged.  On a stored
    project that violates a validator ([PUT /:id] can store one) the
    save is refused: the toggle answers 500 and writes nothing. *)
Theorem project_like_flips_membership (db : Db) (req : Req ()) (p : Project.t) :
  projects db !! params_id req = Some p →
  let db' := after (ProjectRoutes.post_id_like req) db in
  let uid := User._id (user req) in
  (Project_validate p →
   ∃ p',
     projects db' !! params_id req = Some p'
     ∧ (uid ∈ Project.likes p' ↔ uid ∉ Project.likes p)
     ∧ (∀ v, v ≠ uid → v ∈ Project.likes p' ↔ v ∈ Project.likes p)
     ∧ response (ProjectRoutes.post_id_like req) db
       = Json 200 (LikeJson (bool_decide (uid ∈ Project.likes p'))
                            (Project.likesCount p'))
     ∧ p' = Project.set_likesCount (Project.likesCount p')
              (Project.set_likes (Project.likes p') p)
     ∧ (∀ k, k ≠ params_id req → projects db' !! k = projects db !! k)
     ∧ comments db' = comments db
     ∧ users db' = users db)
  ∧ (¬ Project_validate p →
     response (ProjectRoutes.post_id_like req) db = UnexpectedFailure
     ∧ db' = db).
Proof.
  intros Hp db' uid. subst db'. unfold after, response. split; intros Hv.
  2: { by rewrite (project_post_id_like_invalid db req p Hp Hv). }
  rewrite (project_post_id_like_saved db req p Hp Hv). simpl.
  exists (liked_project uid p). rewrite lookup_insert_eq.
  assert (uid ∈ toggle_likes uid (Project.likes p) ↔ uid ∉ Project.likes p) as Hflip.
  { rewrite toggle_likes_elem_of. split; [intros [[_ ?]|[_ ?]]; done|by right]. }
  split_and!; try done.
  - intros v Hne. simpl. rewrite toggle_likes_elem_of. naive_solver.
  - do 2 f_equal. simpl. fold uid.
    destruct (decide (uid ∈ Project.likes p)) as [Hin|Hin].
    + rewrite (bool_decide_true _ Hin). simpl. symmetry. apply bool_decide_false.
      by rewrite Hflip; intros ?.
    + rewrite (bool_decide_false _ Hin). simpl. symmetry. apply bool_decide_true.
      by rewrite Hflip.
  - intros k Hk. by rewrite lookup_insert_ne.
Qed.

Lemma project_like_flips_membership_witness :
  (projects Scenario.db0 !! 10%N = Some Scenario.A
   ∧ Project_validate Scenario.A
   ∧ ∃ p',
       projects Scenario.db_liked !! 10%N = Some p'
       ∧ (1%N ∈ Project.likes p' ↔ 1%N ∉ Project.likes Scenario.A))
  ∧ (projects Scenario.db_invalid !! 10%N
     = Some Scenario.A_invalid
     ∧ ¬ Project_validate Scenario.A_invalid
     ∧ response (ProjectRoutes.post_id_like Scenario.like_A) Scenario.db_invalid
       = UnexpectedFailure
     ∧ after (ProjectRoutes.post_id_like Scenario.like_A) Scenario.db_invalid
       = Scenario.db_invalid).
Proof.
  assert (Project_validate Scenario.A) as Hv.
  { apply (bool_decide_unpack (Project_validate Scenario.A)). vm_compute. exact I. }
  assert (¬ Project_validate Scenario.A_invalid) as Hn.
  { intros (H & _). by apply H. }
  split.
  - split; [reflexivity|]. split; [exact Hv|].
    destruct (proj1 (project_like_flips_membership
                       Scenario.db0 Scenario.like_A Scenario.A eq_refl) Hv)
      as (p' & Hp' & Hflip & _).
    exists p'. split; [exact Hp'|exact Hflip].
  - split; [reflexivity|]. split; [exact Hn|].
    exact (proj2 (project_like_flips_membership
                    Scenario.db_invalid Scenario.like_A _ eq_refl) Hn).
Defined.

(** X3. A like toggle of a comment flips the membership of the caller in
    the liker set of the comment and of nobody else; [liked] in the
    response tells whether the caller is in the set afterwards; content,
    author, project, parent reference and reply set of the comment, the
    other comments, the projects and the users are unchanged. *)
Theorem comment_like_flips_membership (db : Db) (req : Req ()) (c : Comment.t) :
  comments db !! params_id req = Some c →
  let db' := after (CommentRoutes.post_id_like req) db in
  let uid := User._id (user req) in
  ∃ c',
    comments db' !! params_id req = Some c'
    ∧ (uid ∈ Comment.likes c' ↔ uid ∉ Comment.likes c)
    ∧ (∀ v, v ≠ uid → v ∈ Comment.likes c' ↔ v ∈ Comment.likes c)
    ∧ (∃ n, response (CommentRoutes.post_id_like req) db
            = Json 200 (LikeJson (bool_decide (uid ∈ Comment.likes c')) n))
    ∧ c' = Comment.set_likesCount (Comment.likesCount c')
             (Comment.set_likes (Comment.likes c') c)
    ∧ (∀ k, k ≠ params_id req → comments db' !! k = comments db !! k)
    ∧ projects db' = projects db
    ∧ users db' = users db.
Proof.
  intros Hc db' uid. subst db'. unfold after, response.
  rewrite (comment_post_id_like_saved db req c Hc). simpl.
  exists (liked_comment uid c). rewrite lookup_insert_eq.
  assert (uid ∈ toggle_likes uid (Comment.likes c) ↔ uid ∉ Comment.likes c) as Hflip.
  { rewrite toggle_likes_elem_of. split; [intros [[_ ?]|[_ ?]]; done|by right]. }
  split_and!; try done.
  - intros v Hv. simpl. rewrite toggle_likes_elem_of. naive_solver.
  - eexists. do 2 f_equal. simpl. fold uid.
    destruct (decide (uid ∈ Comment.likes c)) as [Hin|Hin].
    + rewrite (bool_decide_true _ Hin). simpl. symmetry. apply bool_decide_false.
      by rewrite Hflip; intros ?.
    + rewrite (bool_decide_false _ Hin). simpl. symmetry. apply bool_decide_true.
      by rewrite Hflip.
  - intros k Hk. by rewrite lookup_insert_ne.
Qed.

Lemma comment_like_flips_membership_witness :
  comments Scenario.db2 !! 20%N = Some Scenario.C1'
  ∧ ∃ c',
      comments (after (CommentRoutes.post_id_like (Scenario.as_user Scenario.U3 20%N ()))
                      Scenario.db2) !! 20%N = Some c'
      ∧ (3%N ∈ Comment.likes c' ↔ 3%N ∉ Comment.likes Scenario.C1').
Proof.
  split; [reflexivity|].
  destruct (comment_like_flips_membership Scenario.db2
              (Scenario.as_user Scenario.U3 20%N ()) Scenario.C1' eq_refl)
    as (c' & Hc' & Hflip & _).
  exists c'. split; [exact Hc'|exact Hflip].
Defined.

(** ** Refusals write nothing *)

Ltac unfold_routes :=
  unfold client_error, ProjectCreate.post_root, Project_insert, profile_write in *;
  unfold_handler; unfold raise, respond in *.

Ltac refused :=
  intros Hr; unfold_routes;
  repeat (first [case_bool_decide | case_match]; simplify_eq/=);
  first [done | exfalso; lia].

(** X4. A handler that answers in the 4xx class (400 for a failed
    validation or a taken username, 403, 404) has written nothing: every
    such return precedes the first write of its handler. *)
Theorem client_error_writes_nothing (db : Db) :
  (∀ req oid, client_error (response (ProjectCreate.post_root req oid) db) →
              after (ProjectCreate.post_root req oid) db = db)
  ∧ (∀ req, client_error (response (ProjectRoutes.put_id req) db) →
            after (ProjectRoutes.put_id req) db = db)
  ∧ (∀ req, client_error (response (ProjectRoutes.delete_id req) db) →
            after (ProjectRoutes.delete_id req) db = db)
  ∧ (∀ req, client_error (response (ProjectRoutes.post_id_like req) db) →
            after (ProjectRoutes.post_id_like req) db = db)
  ∧ (∀ req oid, client_error (response (CommentRoutes.post_root req oid) db) →
                after (CommentRoutes.post_root req oid) db = db)
  ∧ (∀ req, client_error (response (CommentRoutes.put_id req) db) →
            after (CommentRoutes.put_id req) db = db)
  ∧ (∀ req, client_error (response (CommentRoutes.delete_id req) db) →
            after (CommentRoutes.delete_id req) db = db)
  ∧ (∀ req, client_error (response (CommentRoutes.post_id_like req) db) →
            after (CommentRoutes.post_id_like req) db = db)
  ∧ (∀ req, client_error (response (UserRoutes.put_profile req) db) →
            after (UserRoutes.put_profile req) db = db).
Proof.
  split_and!.
  - intros req oid. refused.
  - intros req. refused.
  - intros req. refused.
  - intros req. refused.
  - intros req oid. refused.
  - intros req. refused.
  - intros req. refused.
  - intros req. refused.
  - intros req. refused.
Qed.

Lemma client_error_writes_nothing_witness :
  client_error (response (CommentRoutes.post_root Scenario.reply_nowhere 21%N) Scenario.db1)
  ∧ after (CommentRoutes.post_root Scenario.reply_nowhere 21%N) Scenario.db1
    = Scenario.db1
  ∧ client_error (response (UserRoutes.put_profile Scenario.take_ana) Scenario.db0)
  ∧ after (UserRoutes.put_profile Scenario.take_ana) Scenario.db0 = Scenario.db0.
Proof.
  assert (client_error
            (response (CommentRoutes.post_root Scenario.reply_nowhere 21%N) Scenario.db1))
    as H1 by (vm_compute; lia).
  assert (client_error (response (UserRoutes.put_profile Scenario.take_ana) Scenario.db0))
    as H2 by (vm_compute; lia).
  split; [exact H1|]. split.
  - destruct (client_error_writes_nothing Scenario.db1) as (_ & _ & _ & _ & H & _).
    exact (H Scenario.reply_nowhere 21%N H1).
  - split; [exact H2|].
    destruct (client_error_writes_nothing Scenario.db0)
      as (_ & _ & _ & _ & _ & _ & _ & _ & H).
    exact (H Scenario.take_ana H2).
Defined.

(** ** What the comment routes store and remove *)

(** X5. A create of a comment answers 201 exactly when the request has
    passed validation, the project is stored, the parent (when one is
    given) is stored and the identifier of the new document is free;
    nothing else is examined, neither the project nor the nesting level
    of the parent. *)
Theorem create_comment_succeeds_iff
    (db : Db) (req : Req CommentRoutes.PostBody) (oid : ObjectId) :
  status (response (CommentRoutes.post_root req oid) db) = 201%nat
  ↔ validationErrors req = []
    ∧ is_Some (projects db !! CommentRoutes.projectId (reqBody req))
    ∧ (∀ pid, CommentRoutes.parentCommentId (reqBody req) = Some pid →
              is_Some (comments db !! pid))
    ∧ comments db !! oid = None.
Proof.
  split; [apply post_root_201|].
  intros (Hv & Hp & Hpa & Hfree). unfold response.
  by rewrite post_root_created.
Qed.

(** X6. A delete of a comment by its author removes exactly the comment
    and the comments whose parent reference it is.  Every other comment
    stays stored with the fields it had, except that the parent of the
    deleted comment loses it from its reply array; in particular a reply
    to one of the removed replies stays stored, its parent reference
    dangling. *)
Theorem comment_delete_removes_exactly (db : Db) (req : Req ()) (c : Comment.t) :
  comments db !! params_id req = Some c →
  Comment.author c = User._id (user req) →
  let db' := after (CommentRoutes.delete_id req) db in
  let id := params_id req in
  dom (comments db') = dom (comments db) ∖ ({[id]} ∪ dom (children db id))
  ∧ (∀ k x, comments db' !! k = Some x →
       ∃ x0, comments db !! k = Some x0
             ∧ x = if decide (Comment.parentComment c = Some k)
                   then pull_reply id x0 else x0)
  ∧ (∀ k x r, comments db !! k = Some x → k ≠ id →
       Comment.parentComment x = Some r → r ≠ id →
       r ∈ dom (children db id) →
       is_Some (comments db' !! k) ∧ comments db' !! r = None).
Proof.
  intros Hc Ha db' id. subst db' id. unfold after.
  rewrite (delete_id_deleted db req c) by done. simpl.
  assert (∀ k, is_Some (comments_after_delete db (params_id req) c !! k)
               ↔ k ≠ params_id req
                 ∧ ∃ x, comments db !! k = Some x
                        ∧ Comment.parentComment x ≠ Some (params_id req)) as Hdom.
  { intros k. rewrite (lookup_after_delete db req c). unfold is_Some.
    case_decide as Hk; [naive_solver|].
    destruct (comments db !! k) as [x|]; simpl; [|naive_solver].
    case_decide; naive_solver. }
  split_and!.
  - apply set_eq. intros k.
    rewrite elem_of_dom, Hdom, elem_of_difference, elem_of_union,
      elem_of_singleton, elem_of_children, elem_of_dom.
    unfold is_Some. naive_solver.
  - intros k x. rewrite (lookup_after_delete db req c).
    case_decide; [done|].
    destruct (comments db !! k) as [x0|]; simpl; [|done].
    case_decide; [done|]. intros [= <-]. by eexists.
  - intros k x r Hk Hne Hpa Hr_ne Hr. split.
    + apply Hdom. split; [done|]. exists x. split; [done|]. congruence.
    + apply elem_of_children in Hr as (rd & Hrd & Hrpa).
      rewrite (lookup_after_delete db req c).
      rewrite decide_False, Hrd by done. simpl. by rewrite decide_True.
Qed.

Lemma comment_delete_removes_exactly_witness :
  comments Scenario.db2 !! 20%N = Some Scenario.C1'
  ∧ dom (comments Scenario.db3)
    = dom (comments Scenario.db2) ∖ ({[20%N]} ∪ dom (children Scenario.db2 20%N)).
Proof.
  split; [reflexivity|].
  exact (proj1 (comment_delete_removes_exactly
                  Scenario.db2 Scenario.delete_C1 Scenario.C1' eq_refl eq_refl)).
Defined.

(** ** The comment counter and the collection *)

Section CounterAgreement.
Context (q : ObjectId).

Local Abbreviation of_q := (λ kc : N * Comment.t, matches (ByProject q) kc.2).

(** An update that keeps the project of a comment keeps the comments
    attached to [q]. *)
Lemma dom_filter_project_alter (f : Comment.t → Comment.t) k (m : gmap N Comment.t) :
  (∀ c, Comment.project (f c) = Comment.project c) →
  dom (filter of_q (alter f k m)) = dom (filter of_q m).
Proof.
  intros Hf. apply set_eq. intros j. rewrite !elem_of_dom. unfold is_Some.
  setoid_rewrite map_lookup_filter_Some. simpl. rewrite lookup_alter.
  case_decide as Hj; [subst j|done].
  destruct (m !! k) as [c|]; simpl; [|naive_solver]. split.
  - intros (x & [= <-] & Hx). exists c. by rewrite <-Hf.
  - intros (x & [= <-] & Hx). exists (f c). by rewrite Hf.
Qed.

Lemma size_filter_project_alter (f : Comment.t → Comment.t) k (m : gmap N Comment.t) :
  (∀ c, Comment.project (f c) = Comment.project c) →
  size (filter of_q (alter f k m)) = size (filter of_q m).
Proof. intros Hf. by rewrite <-!size_dom, dom_filter_project_alter. Qed.

Lemma size_comments_of_after_create db (req : Req CommentRoutes.PostBody) oid :
  comments db !! oid = None →
  size (filter of_q (comments_after_create db req oid))
  = (size (comments_of db q)
     + if decide (CommentRoutes.projectId (reqBody req) = q) then 1 else 0)%nat.
Proof.
  intros Hfree. unfold comments_after_create, comments_of.
  assert (size (filter of_q (<[oid := Comment.fields (new_comment req oid)]> (comments db)))
          = (size (filter of_q (comments db))
             + if decide (CommentRoutes.projectId (reqBody req) = q) then 1 else 0)%nat)
    as Hins.
  { case_decide as Hq.
    - rewrite map_filter_insert_True by done.
      rewrite map_size_insert_None; [lia|].
      apply map_lookup_filter_None. by left.
    - rewrite map_filter_insert_False by done.
      rewrite delete_id by done. lia. }
  destruct (CommentRoutes.parentCommentId (reqBody req)); [|done].
  by rewrite size_filter_project_alter.
Qed.

Lemma size_comments_of_after_delete db id c :
  comments db !! id = Some c →
  children db id = ∅ →
  (size (filter of_q (comments_after_delete db id c))
   + (if decide (Comment.project c = q) then 1 else 0)
   = size (comments_of db q))%nat.
Proof.
  intros Hc Hnone. unfold comments_after_delete, comments_of.
  assert (filter (λ kc, ¬ matches (ByParentComment id) kc.2) (comments db) = comments db)
    as ->.
  { apply map_filter_id. intros k x Hk Hm.
    assert (children db id !! k = Some x) as Hin by (by apply map_lookup_filter_Some).
    by rewrite Hnone, lookup_empty in Hin. }
  rewrite map_filter_delete.
  assert (size (filter of_q (match Comment.parentComment c with
                             | Some parent => alter (pull_reply id) parent (comments db)
                             | None => comments db
                             end))
          = size (filter of_q (comments db))) as Hsz.
  { destruct (Comment.parentComment c); [|done]. by apply size_filter_project_alter. }
  rewrite <-Hsz. clear Hsz.
  set (m := match Comment.parentComment c with
            | Some parent => alter (pull_reply id) parent (comments db)
            | None => comments db
            end).
  assert (∃ c', m !! id = Some c' ∧ Comment.project c' = Comment.project c)
    as (c' & Hc' & Hpr).
  { subst m. destruct (Comment.parentComment c) as [parent|]; [|by eexists].
    rewrite lookup_alter. case_decide; subst; rewrite Hc; by eexists. }
  case_decide as Hq.
  - assert (filter of_q m !! id = Some c') as Hin
      by (apply map_lookup_filter_Some; split; [done|]; simpl; congruence).
    rewrite map_size_delete_Some by (by eexists).
    assert (size (filter of_q m) ≠ 0)%nat; [|lia].
    apply map_size_non_empty_iff. intros He. by rewrite He, lookup_empty in Hin.
  - rewrite map_size_delete_None; [lia|].
    apply map_lookup_filter_None. right. intros y Hy; simpl. congruence.
Qed.
End CounterAgreement.

(** A counter that agrees with a collection of fewer than [2^53]
    comments is an integer an [$inc] by one handles exactly. *)
Lemma counter_agrees_safe (db : Db) (q : ObjectId) (pq : Project.t) :
  (Z.of_nat (size (comments db)) < 2 ^ 53)%Z →
  counter_agrees db q pq → safe_counter pq.
Proof.
  unfold counter_agrees, safe_counter, comments_of. intros Hsmall ->.
  pose proof (map_subseteq_size _ _
                (map_filter_subseteq (λ kc, matches (ByProject q) kc.2) (comments db))).
  lia.
Qed.

(** X7. A successful create of a comment, in a database of fewer than
    [2^53] comments, keeps the counter of every project in agreement
    with the collection: a stored project whose [commentsCount] was the
    number of comments attached to it still has that property
    afterwards. *)
Theorem create_keeps_counter_agreement
    (db : Db) (req : Req CommentRoutes.PostBody) (oid q : ObjectId) (pq : Project.t) :
  (Z.of_nat (size (comments db)) < 2 ^ 53)%Z →
  status (response (CommentRoutes.post_root req oid) db) = 201%nat →
  projects db !! q = Some pq →
  counter_agrees db q pq →
  let db' := after (CommentRoutes.post_root req oid) db in
  ∃ pq', projects db' !! q = Some pq' ∧ counter_agrees db' q pq'.
Proof.
  intros Hsmall Hs Hq Hagree db'. subst db'. rewrite after_create by done.
  destruct (post_root_201 _ _ _ Hs) as (_ & _ & _ & Hfree).
  pose proof (counter_agrees_safe db q pq Hsmall Hagree) as Hsafe.
  unfold counter_agrees, comments_of in *. cbn [projects comments users].
  rewrite (size_comments_of_after_create q db req oid Hfree).
  rewrite lookup_alter. case_decide as Hpid.
  - subst q. rewrite Hq. unfold fmap, option_fmap, option_map.
    rewrite inc_commentsCount_safe by (done || lia).
    eexists; split; [done|]. simpl.
    unfold comments_of. rewrite Hagree. lia.
  - exists pq. split; [done|]. unfold comments_of. rewrite Hagree. lia.
Qed.

Lemma create_keeps_counter_agreement_witness :
  (Z.of_nat (size (comments Scenario.db1)) < 2 ^ 53)%Z
  ∧ counter_agrees Scenario.db1 10%N (Project.set_commentsCount 1 Scenario.A)
  ∧ ∃ pq', projects Scenario.db2 !! 10%N = Some pq'
           ∧ counter_agrees Scenario.db2 10%N pq'.
Proof.
  assert (Z.of_nat (size (comments Scenario.db1)) < 2 ^ 53)%Z as Hsmall
    by (vm_compute; reflexivity).
  assert (counter_agrees Scenario.db1 10%N (Project.set_commentsCount 1 Scenario.A))
    as H by (vm_compute; reflexivity).
  split; [exact Hsmall|]. split; [exact H|].
  exact (create_keeps_counter_agreement Scenario.db1 Scenario.reply_R1 21%N 10%N
           (Project.set_commentsCount 1 Scenario.A) Hsmall eq_refl eq_refl H).
Defined.

(** X8. A delete of a comment that has no replies, by its author, in a
    database of fewer than [2^53] comments, keeps the counter of every
    project in agreement with the collection.  (With replies the
    decrement is one too small for each reply, see C1.) *)
Theorem delete_childless_keeps_counter_agreement
    (db : Db) (req : Req ()) (c : Comment.t) (q : ObjectId) (pq : Project.t) :
  (Z.of_nat (size (comments db)) < 2 ^ 53)%Z →
  comments db !! params_id req = Some c →
  Comment.author c = User._id (user req) →
  children db (params_id req) = ∅ →
  projects db !! q = Some pq →
  counter_agrees db q pq →
  let db' := after (CommentRoutes.delete_id req) db in
  ∃ pq', projects db' !! q = Some pq' ∧ counter_agrees db' q pq'.
Proof.
  intros Hsmall Hc Ha Hnone Hq Hagree db'. subst db'. unfold after.
  rewrite (delete_id_deleted db req c) by done.
  pose proof (counter_agrees_safe db q pq Hsmall Hagree) as Hsafe.
  unfold counter_agrees, comments_of in *. cbn [snd projects comments users].
  pose proof (size_comments_of_after_delete q db (params_id req) c Hc Hnone) as Hsz.
  unfold comments_of in Hsz.
  rewrite lookup_alter. case_decide as Hpid.
  - subst q. rewrite Hq. unfold fmap, option_fmap, option_map.
    rewrite inc_commentsCount_safe by (done || lia).
    eexists; split; [done|].
    simpl in *. rewrite Hagree. lia.
  - exists pq. split; [done|]. rewrite Hagree. lia.
Qed.

Lemma delete_childless_keeps_counter_agreement_witness :
  (Z.of_nat (size (comments Scenario.db2)) < 2 ^ 53)%Z
  ∧ children Scenario.db2 21%N = ∅
  ∧ counter_agrees Scenario.db2 10%N (Project.set_commentsCount 2 Scenario.A)
  ∧ ∃ pq',
      projects (after (CommentRoutes.delete_id Scenario.delete_R1) Scenario.db2) !! 10%N
      = Some pq'
      ∧ counter_agrees (after (CommentRoutes.delete_id Scenario.delete_R1) Scenario.db2)
                       10%N pq'.
Proof.
  assert (Z.of_nat (size (comments Scenario.db2)) < 2 ^ 53)%Z as Hsmall
    by (vm_compute; reflexivity).
  assert (children Scenario.db2 21%N = ∅) as H0 by (vm_compute; reflexivity).
  assert (counter_agrees Scenario.db2 10%N (Project.set_commentsCount 2 Scenario.A))
    as H by (vm_compute; reflexivity).
  split; [exact Hsmall|]. split; [exact H0|]. split; [exact H|].
  exact (delete_childless_keeps_counter_agreement Scenario.db2 Scenario.delete_R1
           Scenario.R1 10%N (Project.set_commentsCount 2 Scenario.A)
           Hsmall eq_refl eq_refl H0 eq_refl H).
Defined.

(** ** Create, then delete *)

Lemma pull_push_reply oid (x : Comment.t) :
  oid ∉ Comment.replies x → pull_reply oid (push_reply oid x) = x.
Proof.
  destruct x as [c a p pa rs ls n]. simpl. intros Hoid.
  unfold pull_reply, push_reply, Comment.set_replies. simpl. f_equal.
  rewrite filter_app, filter_cons_False, filter_nil, app_nil_r by (by intros ?).
  induction rs as [|r rs IH]; [done|].
  apply not_elem_of_cons in Hoid as [Hr Hrs].
  rewrite filter_cons_True by done. by rewrite IH.
Qed.

(** X9. Create, then delete: when the identifier given to a new comment
    was never used (no stored comment and no reply array refers to it)
    and the [commentsCount] of the project of the request is an integer
    of magnitude below [2^53], the delete of the comment by its author
    right after its create answers 200 and leaves exactly the database
    of before the create: same comments, same reply arrays, same
    counters.  At [2^53] the create leaves the counter as it is and the
    delete takes one off. *)
Theorem create_then_delete_restores
    (db : Db) (req : Req CommentRoutes.PostBody) (oid : ObjectId) (req' : Req ()) :
  status (response (CommentRoutes.post_root req oid) db) = 201%nat →
  unused_id db oid →
  (∀ p, projects db !! CommentRoutes.projectId (reqBody req) = Some p →
        safe_counter p) →
  params_id req' = oid →
  User._id (user req') = User._id (user req) →
  run (CommentRoutes.delete_id req') (after (CommentRoutes.post_root req oid) db)
  = (Json 200 (Message "Comment deleted successfully"), db).
Proof.
  intros Hs [Hfree Hunused] Hsafe Hid Hu.
  pose proof (lookup_after_create db req oid Hs) as Hlook.
  rewrite (after_create db req oid Hs).
  rewrite (delete_id_deleted _ req' (Comment.fields (new_comment req oid))); cycle 1.
  { simpl. rewrite Hid, Hlook. by rewrite decide_True. }
  { by rewrite Hu. }
  f_equal. destruct db as [us ps cs]. simpl in *. f_equal.
  - apply map_eq. intros k. rewrite !lookup_alter.
    case_decide; [subst k|done]. rewrite decide_True by done.
    destruct (ps !! _) as [p|] eqn:Hp; [|done].
    specialize (Hsafe p eq_refl). unfold safe_counter in Hsafe.
    unfold fmap, option_fmap, option_map. f_equal.
    unfold inc_commentsCount, Project.set_commentsCount.
    destruct p; simpl in *. f_equal.
    rewrite (to_double_exact (_ + 1)) by lia.
    rewrite to_double_exact by lia. lia.
  - apply map_eq. intros k.
    rewrite (lookup_after_delete _ req'). simpl. rewrite Hid, Hlook.
    destruct (decide (k = oid)) as [->|Hk]; [done|].
    destruct (cs !! k) as [x|] eqn:Hx.
    + destruct (Hunused k x Hx) as [Hpa Hrs].
      case_decide as Hpk; simpl.
      * rewrite decide_False by done. by rewrite pull_push_reply.
      * by rewrite decide_False by done.
    + by case_decide.
Qed.

Lemma create_then_delete_restores_witness :
  unused_id Scenario.db1 21%N
  ∧ (∀ p, projects Scenario.db1 !! 10%N = Some p → safe_counter p)
  ∧ run (CommentRoutes.delete_id Scenario.delete_R1) Scenario.db2
    = (Json 200 (Message "Comment deleted successfully"), Scenario.db1).
Proof.
  assert (unused_id Scenario.db1 21%N) as H.
  { apply (bool_decide_unpack (unused_id Scenario.db1 21%N)). vm_compute. exact I. }
  assert (∀ p, projects Scenario.db1 !! 10%N = Some p → safe_counter p) as Hsafe.
  { intros p Hp. vm_compute in Hp. injection Hp as <-.
    unfold safe_counter. simpl. lia. }
  split; [exact H|]. split; [exact Hsafe|].
  exact (create_then_delete_restores Scenario.db1 Scenario.reply_R1 21%N
           Scenario.delete_R1 eq_refl H Hsafe eq_refl eq_refl).
Defined.

(** ** The project update and the project create *)

Lemma normalise_tags_author u :
  ProjectRoutes.author (ProjectRoutes.normalise_tags u) = ProjectRoutes.author u.
Proof.
  unfold ProjectRoutes.normalise_tags.
  destruct (ProjectRoutes.tags u) as [[t|l]|]; try done. by case_bool_decide.
Qed.

(** X10. The update of a project takes [author] from the body like any
    other path: once the author has sent [author: b], the former author
    is refused (403) on the update and on the delete of the project,
    and [b] can delete it. *)
Theorem put_author_transfers_ownership
    (db : Db) (req : Req ProjectRoutes.UpdateData) (p : Project.t) (b : ObjectId) :
  projects db !! params_id req = Some p →
  Project.author p = User._id (user req) →
  ProjectRoutes.author (reqBody req) = Some b →
  b ≠ User._id (user req) →
  let db' := after (ProjectRoutes.put_id req) db in
  (∀ req1 : Req ProjectRoutes.UpdateData,
     params_id req1 = params_id req →
     User._id (user req1) = User._id (user req) →
     run (ProjectRoutes.put_id req1) db' = (Unauthorized, db'))
  ∧ (∀ req2 : Req (),
       params_id req2 = params_id req →
       User._id (user req2) = User._id (user req) →
       run (ProjectRoutes.delete_id req2) db' = (Unauthorized, db'))
  ∧ (∀ req2 : Req (),
       params_id req2 = params_id req →
       User._id (user req2) = b →
       response (ProjectRoutes.delete_id req2) db'
       = Json 200 (Message "Project deleted successfully")
       ∧ projects (after (ProjectRoutes.delete_id req2) db') !! params_id req = None).
Proof.
  intros Hp Ha Hb Hne db'. subst db'.
  rewrite (project_put_id_updated db req p) by done.
  set (p' := ProjectRoutes.apply_update (ProjectRoutes.normalise_tags (reqBody req)) p).
  assert (Project.author p' = b) as Hp'.
  { subst p'. unfold ProjectRoutes.apply_update. simpl.
    by rewrite normalise_tags_author, Hb. }
  split_and!.
  - intros req1 Hid Hu. apply (project_put_id_not_author _ req1 p').
    + simpl. rewrite Hid. apply lookup_insert_eq.
    + congruence.
  - intros req2 Hid Hu. apply (project_delete_id_not_author _ req2 p').
    + simpl. rewrite Hid. apply lookup_insert_eq.
    + congruence.
  - intros req2 Hid Hu. unfold response, after.
    rewrite (project_delete_id_deleted _ req2 p').
    + simpl. split; [done|]. rewrite Hid. apply lookup_delete_eq.
    + simpl. rewrite Hid. apply lookup_insert_eq.
    + congruence.
Qed.

Lemma put_author_transfers_ownership_witness :
  projects Scenario.db0 !! 10%N = Some Scenario.A
  ∧ run (ProjectRoutes.delete_id (Scenario.as_user Scenario.U1 10%N ()))
        (after (ProjectRoutes.put_id Scenario.give_A_to_U2) Scenario.db0)
    = (Unauthorized, after (ProjectRoutes.put_id Scenario.give_A_to_U2) Scenario.db0).
Proof.
  split; [reflexivity|].
  destruct (put_author_transfers_ownership Scenario.db0 Scenario.give_A_to_U2
              Scenario.A 2%N eq_refl eq_refl eq_refl) as (_ & H & _).
  - intros [=].
  - exact (H (Scenario.as_user Scenario.U1 10%N ()) eq_refl eq_refl).
Defined.





(** ** The profile update *)

Section ProfileWrite.
Context (db : Db) (req : Req UserRoutes.ProfileBody).

Local Abbreviation uid := (User._id (user req)).

(** The handler either writes nothing or stores the caller's document
    with the body applied, and then the unique index has let the write
    through. *)
Lemma put_profile_after :
  after (UserRoutes.put_profile req) db = db
  ∨ ∃ u, users db !! uid = Some u
         ∧ after (UserRoutes.put_profile req) db
           = set_users (<[uid := UserRoutes.apply_update (reqBody req) u]> (users db)) db
         ∧ ¬ (User.username (UserRoutes.apply_update (reqBody req) u) ≠ User.username u
              ∧ UserRoutes.username_index_refuses uid
                  (User.username (UserRoutes.apply_update (reqBody req) u)) (users db)).
Proof.
  unfold_routes.
  repeat (first [case_bool_decide | case_match]; simplify_eq/=);
    first [by left | right; eexists; split_and!; done].
Qed.
End ProfileWrite.

(** X13. A profile update, whatever its outcome, changes neither the
    email nor the password of the caller, touches no other account, adds
    and removes no account, and leaves the projects and the comments
    alone. *)
Theorem put_profile_frame (db : Db) (req : Req UserRoutes.ProfileBody) :
  let db' := after (UserRoutes.put_profile req) db in
  projects db' = projects db
  ∧ comments db' = comments db
  ∧ dom (users db') = dom (users db)
  ∧ (∀ k, k ≠ User._id (user req) → users db' !! k = users db !! k)
  ∧ (∀ u, users db !! User._id (user req) = Some u →
          ∃ u', users db' !! User._id (user req) = Some u'
                ∧ User.email u' = User.email u
                ∧ User.password u' = User.password u).
Proof.
  intros db'. subst db'.
  destruct (put_profile_after db req) as [->|(u & Hu & -> & _)].
  - split_and!; try done. intros u Hu. by exists u.
  - simpl. split_and!; try done.
    + apply dom_insert_lookup_L. by eexists.
    + intros k Hk. by rewrite lookup_insert_ne.
    + intros u0 Hu0. simplify_eq. rewrite lookup_insert_eq. by eexists.
Qed.

Lemma put_profile_frame_witness :
  users Scenario.db0 !! 2%N = Some (User.fields Scenario.U2)
  ∧ ∃ u', users (after (UserRoutes.put_profile Scenario.keep_ben) Scenario.db0) !! 2%N
          = Some u'
          ∧ User.email u' = User.email Scenario.U2
          ∧ User.password u' = User.password Scenario.U2.
Proof.
  split; [reflexivity|].
  destruct (put_profile_frame Scenario.db0 Scenario.keep_ben) as (_ & _ & _ & _ & H).
  exact (H (User.fields Scenario.U2) eq_refl).
Defined.

(** The write of an authenticated caller whose new username is the
    current one or is borne by no account goes through. *)
Lemma profile_write_accepted (db : Db) (req : Req UserRoutes.ProfileBody) :
  authenticated db req →
  (∀ n, UserRoutes.username (reqBody req) = Some n →
        trim n = n
        ∧ (n = User.username (user req)
           ∨ ∀ k u, users db !! k = Some u → User.username u ≠ n)) →
  status (response (profile_write req) db) = 200%nat.
Proof.
  intros Hauth Hname. unfold authenticated in Hauth.
  unfold profile_write, response, run, bind, ret, raise, respond,
    UserRoutes.User_findByIdAndUpdate.
  rewrite Hauth. rewrite bool_decide_false; [done|].
  intros [Hchange (k & u & Hk & Hne & Hu)].
  unfold UserRoutes.apply_update in Hchange, Hu. simpl in *.
  destruct (UserRoutes.username (reqBody req)) as [n|]; simpl in *; [|done].
  destruct (Hname n eq_refl) as [Htrim [->|Hfree]].
  - by rewrite Htrim in Hchange.
  - rewrite Htrim in Hu. by apply (Hfree k u).
Qed.

(** X14. The uniqueness check of the handler covers the unique index.
    Take a profile update that has passed validation, whose username, if
    any, is as the validators leave one (trimmed, not empty), from a
    caller whose identity is the stored account.  The handler answers
    Conflict exactly when the body carries a username that is not the
    caller's current one and that a stored account bears; in every other
    case it answers 200: the write that the check lets through is never
    refused by the index, there is no 500. *)
Theorem put_profile_check_covers_index (db : Db) (req : Req UserRoutes.ProfileBody) :
  validationErrors req = [] →
  authenticated db req →
  (∀ n, UserRoutes.username (reqBody req) = Some n → trim n = n ∧ n ≠ "") →
  let r := response (UserRoutes.put_profile req) db in
  (r = Conflict
   ↔ ∃ n k u, UserRoutes.username (reqBody req) = Some n
              ∧ n ≠ User.username (user req)
              ∧ users db !! k = Some u
              ∧ User.username u = n)
  ∧ (r ≠ Conflict → status r = 200%nat).
Proof.
  intros Hv Hauth Hname r. subst r.
  assert (∀ a : Response, status a = 200%nat → a ≠ Conflict) as Hnc
    by (intros a Ha ->; discriminate).
  destruct (UserRoutes.username (reqBody req)) as [n|] eqn:Hn.
  - destruct (Hname n eq_refl) as [Htrim Hne0].
    destruct (decide (n = User.username (user req))) as [Hown|Hown].
    + assert (status (response (UserRoutes.put_profile req) db) = 200%nat) as H200.
      { unfold response. rewrite put_profile_same_username by congruence.
        apply profile_write_accepted; [done|].
        intros n' Hn'. rewrite Hn in Hn'. injection Hn' as <-. split; [done|by left]. }
      split; [|done]. split; [by intros ?%Hnc|].
      intros (n' & k & u & [= <-] & Hne & _). done.
    + destruct (decide (map_Exists (λ _ u, User.username u = n) (users db)))
        as [(k & u & Hk & Hu)|Hfree].
      * assert (response (UserRoutes.put_profile req) db = Conflict) as Hc.
        { unfold response. by rewrite (put_profile_conflict db req n k u). }
        split; [|done]. split; [|done]. intros _. by exists n, k, u.
      * assert (∀ k u, users db !! k = Some u → User.username u ≠ n) as Hfree'.
        { intros k u Hk Hu. apply Hfree. by exists k, u. }
        assert (status (response (UserRoutes.put_profile req) db) = 200%nat) as H200.
        { assert (run (UserRoutes.put_profile req) db = run (profile_write req) db)
            as Hrun.
          { unfold UserRoutes.put_profile, profile_write, run, bind, respond, ret.
            rewrite bool_decide_false by (by rewrite Hv; intros []).
            rewrite Hn. rewrite bool_decide_true by done.
            by rewrite (User_findOne_username_free db n Hfree'). }
          unfold response. rewrite Hrun.
          apply profile_write_accepted; [done|].
          intros n' Hn'. rewrite Hn in Hn'. injection Hn' as <-.
          split; [done|by right]. }
        split; [|done]. split; [by intros ?%Hnc|].
        intros (n' & k & u & [= <-] & _ & Hk & Hu). by destruct (Hfree' k u).
  - assert (status (response (UserRoutes.put_profile req) db) = 200%nat) as H200.
    { assert (run (UserRoutes.put_profile req) db = run (profile_write req) db)
        as Hrun.
      { unfold UserRoutes.put_profile, profile_write, run, bind, respond, ret.
        rewrite bool_decide_false by (by rewrite Hv; intros []).
        by rewrite Hn. }
      unfold response. rewrite Hrun.
      apply profile_write_accepted; [done|]. intros n' Hn'. congruence. }
    split; [|done]. split; [by intros ?%Hnc|].
    intros (n' & _ & _ & [=] & _).
Qed.

Lemma put_profile_check_covers_index_witness :
  (authenticated Scenario.db0 Scenario.take_ana
   ∧ response (UserRoutes.put_profile Scenario.take_ana) Scenario.db0 = Conflict)
  ∧ (authenticated Scenario.db0 Scenario.rename_ben
     ∧ response (UserRoutes.put_profile Scenario.rename_ben) Scenario.db0 ≠ Conflict
     ∧ status (response (UserRoutes.put_profile Scenario.rename_ben) Scenario.db0)
       = 200%nat).
Proof.
  split.
  - split; [reflexivity|].
    apply (put_profile_check_covers_index Scenario.db0 Scenario.take_ana).
    + reflexivity.
    + reflexivity.
    + intros n [= <-]. split; [reflexivity|intros [=]].
    + exists "ana", 1%N, (User.fields Scenario.U1).
      split; [reflexivity|]. split; [intros [=]|]. split; reflexivity.
  - split; [reflexivity|].
    assert (response (UserRoutes.put_profile Scenario.rename_ben) Scenario.db0
            ≠ Conflict) as Hnc by (intros [=]).
    split; [exact Hnc|].
    apply (put_profile_check_covers_index Scenario.db0 Scenario.rename_ben).
    + reflexivity.
    + reflexivity.
    + intros n [= <-]. split; [reflexivity|intros [=]].
    + exact Hnc.
Defined.

(** The premise on the caller is needed: with an identity that bears a
    username the stored account does not have (the account was renamed
    since the identity was read), the check is skipped for that
    username and the index refuses the write. *)
Lemma put_profile_stale_identity :
  run (UserRoutes.put_profile
         (Scenario.as_user (Scenario.user 2 "ana") 0%N
            (UserRoutes.mkProfile (Some "ana") None None None None)))
      Scenario.db0
  = (UnexpectedFailure, Scenario.db0).
Proof. vm_compute. reflexivity. Qed.

(** X15. A profile update that has passed validation, from a caller
    whose identity is the stored account, is answered 200 with the
    updated account (without the password) whenever the submitted
    username, as the validators leave it (trimmed), is the caller's
    current one or is borne by no account; the stored account then has
    the fields of the body, where present, and its former values
    elsewhere. *)
Theorem put_profile_succeeds (db : Db) (req : Req UserRoutes.ProfileBody) :
  validationErrors req = [] →
  authenticated db req →
  (∀ n, UserRoutes.username (reqBody req) = Some n →
        trim n = n
        ∧ (n = User.username (user req)
           ∨ ∀ k u, users db !! k = Some u → User.username u ≠ n)) →
  let u' := UserRoutes.apply_update (reqBody req) (User.fields (user req)) in
  run (UserRoutes.put_profile req) db
  = (Json 200 (UserJson (Some (UserRoutes.select_no_password
                                 (User.Doc (User._id (user req)) u')))),
     set_users (<[User._id (user req) := u']> (users db)) db).
Proof.
  intros Hv Hauth Hname u'. subst u'. unfold authenticated in Hauth.
  assert (run (UserRoutes.put_profile req) db = run (profile_write req) db) as ->.
  { unfold UserRoutes.put_profile, profile_write, run, bind, respond, ret.
    rewrite bool_decide_false by (by rewrite Hv; intros []).
    destruct (UserRoutes.username (reqBody req)) as [n|] eqn:Hn; [|done].
    case_bool_decide as Hchk; [|done]. destruct Hchk as [_ Hneq].
    destruct (Hname n eq_refl) as [_ [?|Hfree]]; [done|].
    by rewrite (User_findOne_username_free db n Hfree). }
  unfold profile_write, run, bind, ret, raise, respond,
    UserRoutes.User_findByIdAndUpdate.
  rewrite Hauth. rewrite bool_decide_false; [done|].
  intros [Hchange (k & u & Hk & Hne & Hu)].
  unfold UserRoutes.apply_update in Hchange, Hu. simpl in *.
  destruct (UserRoutes.username (reqBody req)) as [n|]; simpl in *; [|done].
  destruct (Hname n eq_refl) as [Htrim [->|Hfree]].
  - by rewrite Htrim in Hchange.
  - rewrite Htrim in Hu. by apply (Hfree k u).
Qed.

Lemma put_profile_succeeds_witness :
  authenticated Scenario.db0 Scenario.rename_ben
  ∧ User.username
      <$> users (run (UserRoutes.put_profile Scenario.rename_ben) Scenario.db0).2 !! 2%N
    = Some "benny".
Proof.
  split; [reflexivity|].
  rewrite (put_profile_succeeds Scenario.db0 Scenario.rename_ben eq_refl eq_refl).
  - reflexivity.
  - intros n [= <-]. split; [reflexivity|]. right.
    assert (map_Forall (λ _ u, User.username u ≠ "benny") (users Scenario.db0)) as H.
    { apply (bool_decide_unpack
               (map_Forall (λ _ u, User.username u ≠ "benny") (users Scenario.db0))).
      vm_compute. exact I. }
    exact H.
Defined.

(** ** Pagination of the list routes *)

Lemma pages_bounds (q : Pagination.Query) (total : Z) :
  (0 < Pagination.limit q)%Z →
  ((Pagination.pages q total - 1) * Pagination.limit q < total
   ≤ Pagination.pages q total * Pagination.limit q)%Z.
Proof.
  intros Hl. unfold Pagination.pages.
  pose proof (Z.div_mod (- total) (Pagination.limit q)) as Hdiv.
  pose proof (Z.mod_pos_bound (- total) (Pagination.limit q) Hl) as Hmod.
  nia.
Qed.

(** X16. With a positive [limit] (the parameter is absent, [0], not a
    number, or positive), [pages] is the ceiling of [total / limit]: the
    least number of pages of [limit] documents that hold [total]
    documents; it is [0] exactly when there is no document.  An absent,
    zero or non-numeric [page] is page 1 and [limit] is then 10. *)
Theorem pages_is_ceiling (q : Pagination.Query) (total : Z) :
  (0 < Pagination.limit q)%Z →
  (0 ≤ total)%Z →
  let n := Pagination.pages q total in
  ((n - 1) * Pagination.limit q < total ≤ n * Pagination.limit q)%Z
  ∧ (n = 0 ↔ total = 0)
  ∧ (∀ v, (v = None ∨ v = Some 0) →
          Pagination.page (Pagination.mkQuery v (Pagination.q_limit q)) = 1
          ∧ Pagination.limit (Pagination.mkQuery (Pagination.q_page q) v) = 10).
Proof.
  intros Hl Ht n. subst n.
  pose proof (pages_bounds q total Hl) as Hb.
  split_and!; [lia|lia|nia|].
  intros v [->| ->]; done.
Qed.

Lemma pages_is_ceiling_witness :
  let q := Pagination.mkQuery (Some 2) (Some 0) in
  Pagination.limit q = 10
  ∧ Pagination.pages q 21 = 3
  ∧ ((3 - 1) * 10 < 21 ≤ 3 * 10)%Z.
Proof.
  intros q. split; [reflexivity|]. split; [reflexivity|].
  assert (0 < Pagination.limit q)%Z as Hl by (vm_compute; reflexivity).
  assert (0 ≤ 21)%Z as Ht by lia.
  exact (proj1 (pages_is_ceiling q 21 Hl Ht)).
Defined.

(** X17. With a positive [limit], the windows [skip, skip + limit) of the
    pages 1 to [pages] partition the positions below [total]: every
    position lies in the window of exactly one page, and that page is
    between 1 and [pages]; a page beyond [pages] starts at or after
    [total], so it is empty. *)
Theorem page_windows_partition (q : Pagination.Query) (total : Z) :
  (0 < Pagination.limit q)%Z →
  (0 ≤ total)%Z →
  let window p i :=
    let qp := Pagination.mkQuery (Some p) (Pagination.q_limit q) in
    (Pagination.skip qp ≤ i < Pagination.skip qp + Pagination.limit qp)%Z in
  (∀ i, (0 ≤ i < total)%Z →
     ∃ p, (1 ≤ p ≤ Pagination.pages q total)%Z
          ∧ window p i
          ∧ ∀ p', p' ≠ 0 → window p' i → p' = p)
  ∧ ((Pagination.pages q total < Pagination.page q)%Z →
     (total ≤ Pagination.skip q)%Z).
Proof.
  intros Hl Ht window. subst window.
  assert (∀ p, p ≠ 0 →
            Pagination.skip (Pagination.mkQuery (Some p) (Pagination.q_limit q))
            = (p - 1) * Pagination.limit q
            ∧ Pagination.limit (Pagination.mkQuery (Some p) (Pagination.q_limit q))
              = Pagination.limit q) as Hskip.
  { intros p Hp. unfold Pagination.skip, Pagination.page, Pagination.limit. simpl.
    by rewrite bool_decide_false by done. }
  pose proof (pages_bounds q total Hl) as Hceil.
  cbv beta zeta. split.
  - intros i Hi. exists (i `div` Pagination.limit q + 1).
    pose proof (Z.div_mod i (Pagination.limit q)) as Hdiv.
    pose proof (Z.mod_pos_bound i (Pagination.limit q) Hl) as Hmod.
    assert (0 ≤ i `div` Pagination.limit q)%Z as Hq by (apply Z.div_pos; lia).
    destruct (Hskip (i `div` Pagination.limit q + 1)) as [-> ->]; [lia|].
    split_and!; [lia|nia|nia|nia|].
    intros p' Hp' Hw. destruct (Hskip p' Hp') as [Hs' Hl'].
    rewrite Hs', Hl' in Hw. nia.
  - intros Hbeyond. unfold Pagination.skip. nia.
Qed.

Lemma page_windows_partition_witness :
  let q := Pagination.mkQuery None (Some 5) in
  Pagination.pages q 12 = 3
  ∧ ∃ p, (1 ≤ p ≤ 3)%Z
         ∧ (Pagination.skip (Pagination.mkQuery (Some p) (Some 5)) ≤ 11
            < Pagination.skip (Pagination.mkQuery (Some p) (Some 5))
              + Pagination.limit (Pagination.mkQuery (Some p) (Some 5)))%Z.
Proof.
  intros q. split; [reflexivity|].
  assert (0 < Pagination.limit q)%Z as Hl by (vm_compute; reflexivity).
  assert (0 ≤ 12)%Z as Ht by lia.
  assert (0 ≤ 11 < 12)%Z as Hi by lia.
  destruct (proj1 (page_windows_partition q 12 Hl Ht) 11 Hi) as (p & Hp & Hw & _).
  exists p. split; [exact Hp|exact Hw].
Defined.

(** ** The tags of a new project *)

Section Tags.

#[local] Arguments is_space : simpl never.
#[local] Arguments is_space2 : simpl never.
#[local] Arguments is_space3 : simpl never.
#[local] Arguments one_space : simpl never.















End Tags.



(** ** The linkage of comments and replies along the comment routes *)

Section Linkage.
Context (db : Db).
Hypothesis Hlinked : linked db.

(** A save that keeps the parent reference and the reply array of the
    saved comment keeps the linkage. *)
Lemma linked_save id (c c' : Comment.t) :
  comments db !! id = Some c →
  Comment.parentComment c' = Comment.parentComment c →
  Comment.replies c' = Comment.replies c →
  linked (set_comments (<[id := c']> (comments db)) db).
Proof.
  intros Hc Hpa Hrs k cd Hk. apply replies_match_iff. intros x. simpl in *.
  assert (Comment.replies cd
          = default [] (Comment.replies <$> comments db !! k)) as ->.
  { apply lookup_insert_Some in Hk as [[<- <-]|[_ Hk]]; by rewrite ?Hc, ?Hk. }
  assert (is_Some (comments db !! k)) as [cd0 Hcd0].
  { apply lookup_insert_Some in Hk as [[<- <-]|[_ Hk]]; by eexists. }
  rewrite Hcd0. simpl.
  rewrite (proj1 (replies_match_iff db k cd0) (Hlinked k cd0 Hcd0) x).
  rewrite lookup_insert. case_decide as Hx; [subst x|done].
  rewrite Hc. split; intros (rd & [= <-] & Hrd); eexists; split; try done; congruence.
Qed.

Lemma linked_after_put (req : Req string) :
  linked (after (CommentRoutes.put_id req) db).
Proof.
  destruct (decide (status (response (CommentRoutes.put_id req) db) = 200%nat))
    as [Hs|Hs]; [|by rewrite comment_put_id_frame].
  unfold response, after in *.
  destruct (decide (validationErrors req = [])) as [Hv|Hv];
    [|by rewrite comment_put_id_invalid in Hs].
  destruct (comments db !! params_id req) as [c|] eqn:Hc;
    [|by rewrite comment_put_id_no_comment in Hs].
  destruct (decide (Comment.author c = User._id (user req))) as [Ha|Ha];
    [|by rewrite (comment_put_id_not_author db req c) in Hs].
  rewrite (comment_put_id_saved db req c) by done. simpl.
  by apply (linked_save _ c).
Qed.

Lemma linked_after_like (req : Req ()) :
  linked (after (CommentRoutes.post_id_like req) db).
Proof.
  unfold after. destruct (comments db !! params_id req) as [c|] eqn:Hc.
  - rewrite (comment_post_id_like_saved db req c Hc). simpl.
    by apply (linked_save _ c).
  - by rewrite comment_post_id_like_no_comment.
Qed.

Lemma linked_after_delete (req : Req ()) :
  linked (after (CommentRoutes.delete_id req) db).
Proof.
  unfold after. destruct (comments db !! params_id req) as [c|] eqn:Hc;
    [|by rewrite delete_id_no_comment].
  destruct (decide (Comment.author c = User._id (user req))) as [Ha|Ha];
    [|by rewrite (delete_id_not_author db req c)].
  rewrite (delete_id_deleted db req c) by done. simpl.
  intros k cd Hk. apply replies_match_iff. intros x. simpl in *.
  rewrite (lookup_after_delete db req c) in Hk.
  case_decide as Hkid; [done|].
  destruct (comments db !! k) as [cd0|] eqn:Hcd0; simpl in Hk; [|done].
  case_decide as Hchild; [done|]. simplify_eq.
  pose proof (proj1 (replies_match_iff db k cd0) (Hlinked k cd0 Hcd0)) as Hk0.
  rewrite (lookup_after_delete db req c).
  assert (x ∈ Comment.replies
                (if decide (Comment.parentComment c = Some k)
                 then pull_reply (params_id req) cd0 else cd0)
          ↔ x ∈ Comment.replies cd0 ∧ x ≠ params_id req) as ->.
  { case_decide as Hpk; simpl.
    - by rewrite list_elem_of_filter, (comm and).
    - split; [|by intros [? _]]. intros Hx. split; [done|]. intros ->.
      apply Hk0 in Hx as (rd & Hrd & Hrpa). congruence. }
  rewrite Hk0. case_decide as Hx.
  - subst x. split; [by intros [_ ?]|by intros (? & ? & _)].
  - destruct (comments db !! x) as [y|]; simpl;
      [|split; [intros [(? & ? & _) _]|intros (? & ? & _)]; done].
    case_decide as Hy.
    + split; [intros [(rd & [= <-] & Hrd) _]; congruence|intros (? & ? & _); done].
    + split.
      * intros [(rd & [= <-] & Hrd) _]. eexists; split; [done|]. by case_decide.
      * intros (rd & [= <-] & Hrd). split; [|done]. eexists; split; [done|].
        by case_decide.
Qed.

Lemma linked_after_create (req : Req CommentRoutes.PostBody) oid :
  status (response (CommentRoutes.post_root req oid) db) = 201%nat →
  unused_id db oid →
  linked (after (CommentRoutes.post_root req oid) db).
Proof.
  intros Hs [Hfree Hunused]. rewrite (after_create db req oid Hs).
  destruct (post_root_201 _ _ _ Hs) as (_ & _ & Hparent & _).
  intros k cd Hk. apply replies_match_iff. intros x. simpl in *.
  rewrite (lookup_after_create db req oid Hs) in Hk.
  rewrite (lookup_after_create db req oid Hs).
  assert (∀ y yd, comments db !! y = Some yd →
            Comment.parentComment yd ≠ Some oid ∧ oid ∉ Comment.replies yd) as Hun
    by exact Hunused.
  case_decide as Hkoid.
  - simplify_eq. simpl. split; [by intros ?%elem_of_nil|].
    intros (rd & Hrd & Hrpa). case_decide as Hx.
    + simplify_eq. simpl in *.
      destruct (Hparent oid Hrpa) as [? ?]. congruence.
    + case_decide; [destruct (comments db !! x) as [y|] eqn:Hy|]; simplify_eq/=;
        by destruct (Hun _ _ ltac:(eassumption)).
  - assert (∃ cd0, comments db !! k = Some cd0
                   ∧ Comment.replies cd
                     = (if decide (CommentRoutes.parentCommentId (reqBody req) = Some k)
                        then Comment.replies cd0 ++ [oid] else Comment.replies cd0)%list)
      as (cd0 & Hcd0 & ->).
    { case_decide; [destruct (comments db !! k) as [cd0|]|]; simplify_eq/=;
        by eexists. }
    pose proof (proj1 (replies_match_iff db k cd0) (Hlinked k cd0 Hcd0)) as Hk0.
    destruct (decide (x = oid)) as [->|Hx].
    + split.
      * case_decide as Hpk; [|by intros ?%(proj2 (Hun k cd0 Hcd0))].
        intros _. by eexists.
      * intros (rd & [= <-] & Hrd). simpl in Hrd. rewrite decide_True by done.
        apply elem_of_app. right. by left.
    + assert (x ∈ (if decide (CommentRoutes.parentCommentId (reqBody req) = Some k)
                   then Comment.replies cd0 ++ [oid] else Comment.replies cd0)%list
              ↔ x ∈ Comment.replies cd0) as ->.
      { case_decide; [|done]. rewrite elem_of_app, list_elem_of_singleton. naive_solver. }
      rewrite Hk0. clear Hk.
      case_decide; [|done].
      destruct (comments db !! x) as [y|]; simpl;
        [|split; intros (? & ? & _); done].
      split; intros (rd & [= <-] & Hrd); eexists; (split; [done|]); done.
Qed.
End Linkage.

(** X19. The comment routes keep the two directions of the linkage in
    step for every stored comment at once: when each stored comment has
    as reply set exactly the comments whose parent reference it is, this
    still holds after a create whose new identifier was never used,
    after any delete, after any update and after any like toggle of a
    comment, whatever the request and its outcome. *)
Theorem comment_routes_keep_linkage (db : Db) :
  linked db →
  (∀ req oid,
     status (response (CommentRoutes.post_root req oid) db) = 201%nat →
     unused_id db oid →
     linked (after (CommentRoutes.post_root req oid) db))
  ∧ (∀ req oid,
       status (response (CommentRoutes.post_root req oid) db) ≠ 201%nat →
       after (CommentRoutes.post_root req oid) db = db)
  ∧ (∀ req, linked (after (CommentRoutes.delete_id req) db))
  ∧ (∀ req, linked (after (CommentRoutes.put_id req) db))
  ∧ (∀ req, linked (after (CommentRoutes.post_id_like req) db)).
Proof.
  intros Hl. split_and!.
  - intros req oid. by apply linked_after_create.
  - intros req oid Hs. unfold_routes.
    repeat (first [case_bool_decide | case_match]; simplify_eq/=); done.
  - intros req. by apply linked_after_delete.
  - intros req. by apply linked_after_put.
  - intros req. by apply linked_after_like.
Qed.

Lemma comment_routes_keep_linkage_witness :
  linked Scenario.db1
  ∧ linked Scenario.db2
  ∧ linked Scenario.db3.
Proof.
  assert (linked Scenario.db1) as H1.
  { apply (bool_decide_unpack (linked Scenario.db1)). vm_compute. exact I. }
  assert (unused_id Scenario.db1 21%N) as Hu.
  { apply (bool_decide_unpack (unused_id Scenario.db1 21%N)). vm_compute. exact I. }
  pose proof (proj1 (comment_routes_keep_linkage Scenario.db1 H1)
                Scenario.reply_R1 21%N eq_refl Hu) as H2.
  split; [exact H1|]. split; [exact H2|].
  exact (proj1 (proj2 (proj2 (comment_routes_keep_linkage Scenario.db2 H2)))
           Scenario.delete_C1).
Defined.

(** ** The project delete and the invariants *)

(** X20. The delete of a project by its author keeps the counter of
    every other project in agreement with the collection; and when every
    stored reply is attached to the project of its parent, it keeps the
    linkage of comments and replies.  (The create of a comment does not
    compare the project of a reply with that of its parent, so the
    second premise is not an invariant of the routes.) *)
Theorem project_delete_keeps_invariants (db : Db) (req : Req ()) (p : Project.t) :
  projects db !! params_id req = Some p →
  Project.author p = User._id (user req) →
  let db' := after (ProjectRoutes.delete_id req) db in
  (∀ q pq, projects db' !! q = Some pq →
           counter_agrees db q pq → counter_agrees db' q pq)
  ∧ (replies_in_project db → linked db → linked db').
Proof.
  intros Hp Ha db'.
  assert (projects db' = delete (params_id req) (projects db)
          ∧ ∀ k c, comments db' !! k = Some c
                   ↔ comments db !! k = Some c ∧ Comment.project c ≠ params_id req)
    as [Hps Hcs].
  { subst db'. unfold after. rewrite (project_delete_id_deleted db req p) by done.
    simpl. split; [done|]. intros k c. by rewrite map_lookup_filter_Some. }
  split.
  - intros q pq Hq Hagree. unfold counter_agrees, comments_of in *.
    rewrite Hagree. do 2 f_equal.
    assert (q ≠ params_id req) as Hne.
    { intros ->. by rewrite Hps, lookup_delete_eq in Hq. }
    apply map_eq. intros k. apply option_eq. intros c.
    rewrite !map_lookup_filter_Some, Hcs. simpl. naive_solver.
  - intros Hproj Hl k cd Hk. apply replies_match_iff. intros x.
    apply Hcs in Hk as [Hk Hkp].
    rewrite (proj1 (replies_match_iff db k cd) (Hl k cd Hk) x).
    split; intros (rd & Hrd & Hrpa); exists rd; (split; [|done]).
    + apply Hcs. split; [done|].
      pose proof (Hproj x rd Hrd) as Hin. unfold in_project_of_parent in Hin.
      rewrite Hrpa, Hk in Hin. apply bool_decide_eq_true in Hin. congruence.
    + by apply Hcs in Hrd as [? _].
Qed.

Lemma project_delete_keeps_invariants_witness :
  let db' := after (ProjectRoutes.delete_id Scenario.delete_A) Scenario.db_two in
  size (projects Scenario.db_two) = 2%nat
  ∧ size (comments Scenario.db_two) = 4%nat
  ∧ replies_in_project Scenario.db_two
  ∧ linked Scenario.db_two
  ∧ size (projects db') = 1%nat
  ∧ size (comments db') = 2%nat
  ∧ (∃ pq, projects db' !! 11%N = Some pq
           ∧ Project.commentsCount pq = 2
           ∧ counter_agrees Scenario.db_two 11%N pq
           ∧ counter_agrees db' 11%N pq)
  ∧ linked db'.
Proof.
  intros db'.
  assert (replies_in_project Scenario.db_two) as Hp.
  { apply (bool_decide_unpack (replies_in_project Scenario.db_two)).
    vm_compute. exact I. }
  assert (linked Scenario.db_two) as Hl.
  { apply (bool_decide_unpack (linked Scenario.db_two)). vm_compute. exact I. }
  destruct (project_delete_keeps_invariants Scenario.db_two Scenario.delete_A
              (Project.set_commentsCount 2 Scenario.A) eq_refl eq_refl)
    as [Hcount Hlinked].
  split; [reflexivity|]. split; [reflexivity|].
  split; [exact Hp|]. split; [exact Hl|].
  split; [reflexivity|]. split; [reflexivity|].
  split; [|exact (Hlinked Hp Hl)].
  assert (∃ pq, projects db' !! 11%N = Some pq
                ∧ Project.commentsCount pq = 2
                ∧ counter_agrees Scenario.db_two 11%N pq) as (pq & Hq & H2 & Hagree).
  { eexists. split; [vm_compute; reflexivity|].
    split; [reflexivity|]. vm_compute. reflexivity. }
  exists pq. split; [exact Hq|]. split; [exact H2|]. split; [exact Hagree|].
  exact (Hcount 11%N pq Hq Hagree).
Defined.
